(** * DA ID Scanner: the scan ledger, the occurrence count and the two backups

    A shallow embedding of [main.py].  The Streamlit session state, the
    per-station CSV files, the Google Sheets worksheets and the wall clock
    are threaded explicitly through a state-and-exception monad; Python
    strings are sequences of Unicode code points. *)

From Stdlib Require Import NArith List Ascii String Decimal Lia.
From stdpp Require Import base option list gmap.

Local Open Scope N_scope.
Local Open Scope nat_scope.
Local Open Scope list_scope.

(** ** Python strings *)

Module PyStr.

(** A Python [str] is a sequence of code points. *)
Abbreviation pystr := (list N).

(** A literal of the source, read character by character. *)
Definition str (s : string) : pystr :=
  List.map N_of_ascii (list_ascii_of_string s).

(** [str.isspace] on one character: CPython's [_PyUnicode_IsWhitespace]. *)
Definition isspace (c : N) : bool :=
  ((9 <=? c) && (c <=? 13))%N
  || ((28 <=? c) && (c <=? 32))%N
  || (c =? 133)%N || (c =? 160)%N || (c =? 5760)%N
  || ((8192 <=? c) && (c <=? 8202))%N
  || (c =? 8232)%N || (c =? 8233)%N || (c =? 8239)%N
  || (c =? 8287)%N || (c =? 12288)%N.

Fixpoint lstrip (s : pystr) : pystr :=
  match s with
  | [] => []
  | c :: s' => if isspace c then lstrip s' else s
  end.

Definition rstrip (s : pystr) : pystr := rev (lstrip (rev s)).

(** [s.strip()]: leading and trailing whitespace removed. *)
Definition strip (s : pystr) : pystr := rstrip (lstrip s).

(** Truth value of a string: non-empty. *)
Definition truthy (s : pystr) : bool :=
  match s with [] => false | _ :: _ => true end.

Definition digit (c : N) : pystr := [(48 + c)%N].

Fixpoint uint_str (u : Decimal.uint) : pystr :=
  match u with
  | Nil => []
  | D0 u => digit 0 ++ uint_str u
  | D1 u => digit 1 ++ uint_str u
  | D2 u => digit 2 ++ uint_str u
  | D3 u => digit 3 ++ uint_str u
  | D4 u => digit 4 ++ uint_str u
  | D5 u => digit 5 ++ uint_str u
  | D6 u => digit 6 ++ uint_str u
  | D7 u => digit 7 ++ uint_str u
  | D8 u => digit 8 ++ uint_str u
  | D9 u => digit 9 ++ uint_str u
  end.

(** [f"{n}"] for a non-negative [int]. *)
Definition fmt_int (n : nat) : pystr := uint_str (Nat.to_uint n).

(** [%H], [%M], [%S], [%m], [%d]: two digits, zero padded. *)
Definition fmt_02 (n : nat) : pystr :=
  if n <? 10 then digit 0 ++ fmt_int n else fmt_int n.

End PyStr.
Export PyStr.

(** ** The wall clock *)

Record DateTime := {
  year : nat; month : nat; day : nat;
  hour : nat; minute : nat; second : nat
}.

(** [strftime('%H:%M:%S')] *)
Definition strftime_HMS (t : DateTime) : pystr :=
  fmt_02 (hour t) ++ str ":" ++ fmt_02 (minute t) ++ str ":" ++ fmt_02 (second t).

(** [strftime('%Y-%m-%d')] *)
Definition strftime_Ymd (t : DateTime) : pystr :=
  fmt_int (year t) ++ str "-" ++ fmt_02 (month t) ++ str "-" ++ fmt_02 (day t).

(** [strftime('%Y-%m-%d %H:%M:%S')] *)
Definition strftime_full (t : DateTime) : pystr :=
  strftime_Ymd t ++ str " " ++ strftime_HMS t.

(** ** Exceptions and outcomes *)

(** An instance of [Exception]; [str(e)] is its message. *)
Inductive Exn := Exception (msg : pystr).

Definition exn_str (e : Exn) : pystr :=
  match e with Exception msg => msg end.

Inductive Outcome (A : Type) :=
| Returned (a : A)
| Raised (e : Exn).
Arguments Returned {A} a.
Arguments Raised {A} e.

(** ** The ledger entry

    [local_data] holds tuples [(driver_id, scan_time, scan_date, station)];
    the projections are the source's [d[0]] .. [d[3]]. *)
Record Scan := {
  ev_driver_id : pystr;
  ev_scan_time : pystr;
  ev_scan_date : pystr;
  ev_station : pystr
}.

Definition csv_header : list pystr :=
  [str "Driver ID"; str "Scan Time"; str "Scan Date"; str "Station"; str "Saved At"].

Definition sheet_header : list pystr :=
  [str "Driver ID"; str "Scan Time"; str "Scan Date"; str "Station"; str "Uploaded At"].

(** ** The worksheet interface

    The gspread worksheet is supplied by the connection bootstrap; the
    scanner uses four of its methods.  Each may raise, and each runs
    against the state [remote] of the spreadsheet service. *)
Class Worksheet (sheet remote : Type) := {
  get_all_values : sheet -> remote -> Outcome (list (list pystr)) * remote;
  append_row : sheet -> list pystr -> remote -> Outcome unit * remote;
  col_values : sheet -> nat -> remote -> Outcome (list pystr) * remote;
  update : sheet -> pystr -> list (list pystr) -> remote -> Outcome unit * remote
}.

(** Everything the program does to the outside, in order. *)
Inductive Effect (sheet : Type) :=
| StError (msg : pystr)
| PrintTraceback (e : Exn)
| OpenAppend (filename : pystr)
| WriteRow (filename : pystr) (row : list pystr)
| GetAllValues (sh : sheet)
| AppendRow (sh : sheet) (row : list pystr)
| ColValues (sh : sheet) (col : nat)
| Update (sh : sheet) (range_name : pystr) (values : list (list pystr)).
Arguments StError {sheet} msg.
Arguments PrintTraceback {sheet} e.
Arguments OpenAppend {sheet} filename.
Arguments WriteRow {sheet} filename row.
Arguments GetAllValues {sheet} sh.
Arguments AppendRow {sheet} sh row.
Arguments ColValues {sheet} sh col.
Arguments Update {sheet} sh range_name values.

(** [st.session_state] *)
Record SessionState (sheet : Type) := {
  local_data : list Scan;
  stations : list pystr;
  status_text : pystr;
  count_message : pystr;
  count_color : pystr;
  sheets : gmap pystr (option sheet)
}.
Arguments local_data {sheet} s.
Arguments stations {sheet} s.
Arguments status_text {sheet} s.
Arguments count_message {sheet} s.
Arguments count_color {sheet} s.
Arguments sheets {sheet} s.

(** The session together with its environment: the CSV files by name (a
    file is its list of rows), the faults the disk will answer the next
    file operations with, the spreadsheet service, the clock readings and
    the record of effects. *)
Record World (sheet remote : Type) := {
  session : SessionState sheet;
  files : gmap pystr (list (list pystr));
  disk_faults : list (option Exn);
  remote_state : remote;
  clock : nat -> DateTime;
  ticks : nat;
  effects : list (Effect sheet)
}.
Arguments session {sheet remote} w.
Arguments files {sheet remote} w.
Arguments disk_faults {sheet remote} w.
Arguments remote_state {sheet remote} w.
Arguments clock {sheet remote} w.
Arguments ticks {sheet remote} w.
Arguments effects {sheet remote} w.

Definition STATION_TABS : list (pystr * pystr) :=
  [(str "DUD2", str "DUD2"); (str "DUD3", str "DUD3"); (str "DAD2", str "DAD2");
   (str "DAD8", str "DAD8"); (str "DUD5", str "DUD5")].

(** [initialize_session_state] on a fresh session, followed by the
    [sheets] and [status_text] that [initialize_google_sheets] leaves. *)
Definition initialize_session_state {sheet : Type}
    (sheets0 : gmap pystr (option sheet)) (status0 : pystr) : SessionState sheet :=
  {| local_data := [];
     stations := List.map fst STATION_TABS;
     status_text := status0;
     count_message := [];
     count_color := str "lightgreen";
     sheets := sheets0 |}.

Section Scanner.

Context {sheet remote : Type} `{WS : Worksheet sheet remote}.

Local Abbreviation W := (World sheet remote).

(** ** The monad of the program: state and exceptions *)
Definition M (A : Type) : Type := W -> Outcome A * W.

#[global] Instance M_ret : MRet M :=
  fun A (a : A) w => (Returned a, w).

(** Sequencing: an exception skips the rest. *)
#[global] Instance M_bind : MBind M :=
  fun A B (k : A -> M B) (m : M A) w =>
    match m w with
    | (Returned a, w') => k a w'
    | (Raised e, w') => (Raised e, w')
    end.

(** [try: m except Exception as e: h e] *)
Definition try_except {A} (m : M A) (h : Exn -> M A) : M A :=
  fun w =>
    match m w with
    | (Returned a, w') => (Returned a, w')
    | (Raised e, w') => h e w'
    end.

Definition with_session (f : SessionState sheet -> SessionState sheet) : M unit :=
  fun w =>
    (Returned tt,
     {| session := f (session w); files := files w; disk_faults := disk_faults w;
        remote_state := remote_state w; clock := clock w; ticks := ticks w;
        effects := effects w |}).

Definition get_session : M (SessionState sheet) :=
  fun w => (Returned (session w), w).

Definition emit (e : Effect sheet) (w : W) : W :=
  {| session := session w; files := files w; disk_faults := disk_faults w;
     remote_state := remote_state w; clock := clock w; ticks := ticks w;
     effects := effects w ++ [e] |}.

(** [datetime.now()] *)
Definition now : M DateTime :=
  fun w =>
    (Returned (clock w (ticks w)),
     {| session := session w; files := files w; disk_faults := disk_faults w;
        remote_state := remote_state w; clock := clock w; ticks := S (ticks w);
        effects := effects w |}).

(** [st.error(msg)] *)
Definition st_error (msg : pystr) : M unit :=
  fun w => (Returned tt, emit (StError msg) w).

(** [print(traceback.format_exc())] *)
Definition print_traceback (e : Exn) : M unit :=
  fun w => (Returned tt, emit (PrintTraceback e) w).

(** Session assignments. *)
Definition local_data_append (d : Scan) : M unit :=
  with_session (fun s =>
    {| local_data := local_data s ++ [d]; stations := stations s;
       status_text := status_text s; count_message := count_message s;
       count_color := count_color s; sheets := sheets s |}).

Definition set_status_text (v : pystr) : M unit :=
  with_session (fun s =>
    {| local_data := local_data s; stations := stations s;
       status_text := v; count_message := count_message s;
       count_color := count_color s; sheets := sheets s |}).

Definition set_count_message (v : pystr) : M unit :=
  with_session (fun s =>
    {| local_data := local_data s; stations := stations s;
       status_text := status_text s; count_message := v;
       count_color := count_color s; sheets := sheets s |}).

Definition set_count_color (v : pystr) : M unit :=
  with_session (fun s =>
    {| local_data := local_data s; stations := stations s;
       status_text := status_text s; count_message := count_message s;
       count_color := v; sheets := sheets s |}).

(** ** The disk *)

Definition set_disk (fs : gmap pystr (list (list pystr)))
    (faults : list (option Exn)) (w : W) : W :=
  {| session := session w; files := fs; disk_faults := faults;
     remote_state := remote_state w; clock := clock w; ticks := ticks w;
     effects := effects w |}.

(** [os.path.isfile(filename)]: never raises. *)
Definition isfile (filename : pystr) : M bool :=
  fun w => (Returned (bool_decide (is_Some (files w !! filename))), w).

(** The disk answers a file operation with the next fault, if any. *)
Definition disk_answer (w : W) : option Exn * list (option Exn) :=
  match disk_faults w with
  | [] => (None, [])
  | a :: rest => (a, rest)
  end.

(** [open(filename, mode="a", newline="")]: creates the file when it is
    absent and leaves an existing one as it is. *)
Definition open_append (filename : pystr) : M unit :=
  fun w =>
    match disk_answer w with
    | (Some e, rest) => (Raised e, set_disk (files w) rest w)
    | (None, rest) =>
        let fs := match files w !! filename with
                  | Some _ => files w
                  | None => <[filename := []]> (files w)
                  end in
        (Returned tt, emit (OpenAppend filename) (set_disk fs rest w))
    end.

(** [csv.writer(file).writerow(row)] on a file opened for appending. *)
Definition writerow (filename : pystr) (row : list pystr) : M unit :=
  fun w =>
    match disk_answer w with
    | (Some e, rest) => (Raised e, set_disk (files w) rest w)
    | (None, rest) =>
        let old := default [] (files w !! filename) in
        (Returned tt,
         emit (WriteRow filename row)
              (set_disk (<[filename := old ++ [row]]> (files w)) rest w))
    end.

(** ** Calls on a worksheet *)

Definition call_remote {A} (e : Effect sheet)
    (f : remote -> Outcome A * remote) : M A :=
  fun w =>
    let '(r, rs) := f (remote_state w) in
    (r, emit e
          {| session := session w; files := files w; disk_faults := disk_faults w;
             remote_state := rs; clock := clock w; ticks := ticks w;
             effects := effects w |}).

Definition ws_get_all_values (sh : sheet) : M (list (list pystr)) :=
  call_remote (GetAllValues sh) (get_all_values sh).

Definition ws_append_row (sh : sheet) (row : list pystr) : M unit :=
  call_remote (AppendRow sh row) (append_row sh row).

Definition ws_col_values (sh : sheet) (col : nat) : M (list pystr) :=
  call_remote (ColValues sh col) (col_values sh col).

Definition ws_update (sh : sheet) (range_name : pystr)
    (values : list (list pystr)) : M unit :=
  call_remote (Update sh range_name values) (update sh range_name values).

(** ** The program *)

(** [save_to_csv]: back a scan up in the CSV file of its station. *)
Definition save_to_csv (driver_id scan_time scan_date station : pystr) : M unit :=
  let filename := station ++ str "_scans.csv" in
  file_exists ← isfile filename;
  open_append filename;;
  (if negb file_exists then writerow filename csv_header else mret tt);;
  t ← now;
  writerow filename [driver_id; scan_time; scan_date; station; strftime_full t].

(** The row after the last value of the first column, or row 2. *)
Definition next_row (values : list pystr) : nat :=
  match values with
  | [] => 2
  | _ :: _ => length values + 1
  end.

Definition range_name_of (row : nat) : pystr :=
  str "A" ++ fmt_int row ++ str ":E" ++ fmt_int row.

(** The body of the [try] of [sync_single_scan]. *)
Definition sync_body (sh : sheet)
    (driver_id scan_time scan_date station : pystr) : M unit :=
  existing_data ← ws_get_all_values sh;
  (match existing_data with
   | [] => ws_append_row sh sheet_header
   | _ :: _ => mret tt
   end);;
  values ← ws_col_values sh 1;
  t ← now;
  ws_update sh (range_name_of (next_row values))
    [[driver_id; scan_time; scan_date; station; strftime_full t]];;
  set_status_text
    (str "Uploaded to " ++ station ++ str " Google Sheet tab: " ++ driver_id).

(** [sync_single_scan]: push one scan to the worksheet of its station. *)
Definition sync_single_scan (driver_id scan_time scan_date station : pystr) : M unit :=
  s ← get_session;
  match sheets s !! station with
  | Some (Some sh) =>
      try_except (sync_body sh driver_id scan_time scan_date station)
        (fun e =>
           set_status_text (str "Google Sheets sync failed: " ++ exn_str e);;
           print_traceback e)
  | _ =>
      set_status_text (str "No Google Sheet tab available for " ++ station)
  end.

(** [d[0] == driver_id and d[2] == scan_date and d[3] == station] *)
Definition same_day_scan (driver_id scan_date station : pystr) (d : Scan) : Prop :=
  ev_driver_id d = driver_id /\ ev_scan_date d = scan_date /\ ev_station d = station.

#[global] Instance same_day_scan_dec driver_id scan_date station d :
  Decision (same_day_scan driver_id scan_date station d).
Proof. unfold same_day_scan. apply _. Defined.

(** [today_scans] and its length. *)
Definition today_scans (driver_id scan_date station : pystr)
    (ledger : list Scan) : list Scan :=
  filter (same_day_scan driver_id scan_date station) ledger.

Definition scan_count (driver_id scan_date station : pystr)
    (ledger : list Scan) : nat :=
  length (today_scans driver_id scan_date station ledger).

Definition break_message (driver_id : pystr) (count : nat) (station : pystr) : pystr :=
  str "Driver " ++ driver_id ++ str " scanned " ++ fmt_int count ++ str " times at "
    ++ station ++ str " - Take break after this delivery".

Definition normal_message (driver_id : pystr) (count : nat) (station : pystr) : pystr :=
  str "Driver " ++ driver_id ++ str " scanned " ++ fmt_int count
    ++ str " times today at " ++ station.

(** The wording of the two alerts, after the driver id. *)
Definition spec_break_text (count : nat) (station : pystr) : pystr :=
  str "scanned " ++ fmt_int count ++ str " times at " ++ station
    ++ str " - Take break after this delivery".

Definition spec_normal_text (count : nat) (station : pystr) : pystr :=
  str "scanned " ++ fmt_int count ++ str " times today at " ++ station.

(** The count message and its colour. *)
Definition update_alert (driver_id : pystr) (count : nat) (station : pystr) : M unit :=
  if 5 <? count then
    set_count_message (break_message driver_id count station);;
    set_count_color (str "yellow")
  else
    set_count_message (normal_message driver_id count station);;
    set_count_color (str "lightgreen").

(** [scan_id]: process one scan of a driver id at a station. *)
Definition scan_id (driver_id station : pystr) : M unit :=
  if negb (truthy (strip driver_id)) then
    st_error (str "Please enter a Driver ID")
  else
    t1 ← now;
    let scan_time := strftime_HMS t1 in
    t2 ← now;
    let scan_date := strftime_Ymd t2 in
    local_data_append
      {| ev_driver_id := driver_id; ev_scan_time := scan_time;
         ev_scan_date := scan_date; ev_station := station |};;
    set_status_text (str "Scanned locally: " ++ driver_id ++ str " @ " ++ station);;
    save_to_csv driver_id scan_time scan_date station;;
    s ← get_session;
    let count := scan_count driver_id scan_date station (local_data s) in
    update_alert driver_id count station;;
    sync_single_scan driver_id scan_time scan_date station.

(** The form of [main]: [if scan_button and driver_id: scan_id(...)]. *)
Definition submit_form (scan_button : bool) (driver_id selected_station : pystr) : M unit :=
  if scan_button && truthy driver_id then scan_id driver_id selected_station
  else mret tt.

(** ** Vocabulary of the proofs *)

(** An action leaves a part of the world as it is; an action always
    returns. *)
Definition preserves {A X} (f : W -> X) (m : M A) : Prop :=
  forall w, f (snd (m w)) = f w.

Definition never_raises {A} (m : M A) : Prop :=
  forall w, exists a, fst (m w) = Returned a.

(** The tuple a scan appends: the time and the date come from two
    successive readings of the clock. *)
Definition scan_event (d st : pystr) (w : W) : Scan :=
  {| ev_driver_id := d;
     ev_scan_time := strftime_HMS (clock w (ticks w));
     ev_scan_date := strftime_Ymd (clock w (S (ticks w)));
     ev_station := st |}.

(** The world once the scan is in [local_data], before the backup. *)
Definition logged (d st : pystr) (w : W) : W :=
  {| session :=
       {| local_data := local_data (session w) ++ [scan_event d st w];
          stations := stations (session w);
          status_text := str "Scanned locally: " ++ d ++ str " @ " ++ st;
          count_message := count_message (session w);
          count_color := count_color (session w);
          sheets := sheets (session w) |};
     files := files w; disk_faults := disk_faults w;
     remote_state := remote_state w; clock := clock w;
     ticks := S (S (ticks w)); effects := effects w |}.

(** The backup step of the scan, as it runs. *)
Definition backup (d st : pystr) (w : W) : Outcome unit * W :=
  save_to_csv d (ev_scan_time (scan_event d st w)) (ev_scan_date (scan_event d st w))
    st (logged d st w).

(** The count the scan computes. *)
Definition counted (d st : pystr) (w : W) : nat :=
  scan_count d (ev_scan_date (scan_event d st w)) st
    (local_data (session w) ++ [scan_event d st w]).

(** The station has no worksheet, or it could not be opened. *)
Definition no_target (st : pystr) (w : W) : Prop :=
  sheets (session w) !! st = None \/ sheets (session w) !! st = Some None.

(** The worlds a session goes through: it starts with an empty ledger,
    scans come in through the form, and between two scans the disk, the
    service and the clock may have moved. *)
Inductive reachable : W -> Prop :=
| reach_start (w : W) :
    local_data (session w) = [] -> reachable w
| reach_scan (button : bool) (d st : pystr) (w : W) :
    reachable w -> reachable (snd (submit_form button d st w))
| reach_call (d st : pystr) (w : W) :
    reachable w -> reachable (snd (scan_id d st w))
| reach_env (w w' : W) :
    reachable w -> session w' = session w -> reachable w'.

End Scanner.

(** The count display of [main]: [st.warning] when the colour is yellow,
    [st.success] otherwise, nothing while the message is empty. *)
Inductive Banner :=
| Warning (msg : pystr)
| Success (msg : pystr).

Definition count_display {sheet : Type} (s : SessionState sheet) : option Banner :=
  if truthy (count_message s) then
    if bool_decide (count_color s = str "yellow") then Some (Warning (count_message s))
    else Some (Success (count_message s))
  else None.

(** How many requests of a run are for a given driver and station. *)
Definition requests_for (d st : pystr) (reqs : list (pystr * pystr)) : nat :=
  length (filter (fun r => r = (d, st)) reqs).

(** [f"{station}_scans.csv"] *)
Definition csv_name (station : pystr) : pystr := station ++ str "_scans.csv".

(** The row of a scan in the CSV file. *)
Definition data_row (d t dt st : pystr) (saved_at : DateTime) : list pystr :=
  [d; t; dt; st; strftime_full saved_at].

(** The updates among the effects, with their range and values. *)
Definition update_calls {sheet : Type} (l : list (Effect sheet))
    : list (sheet * pystr * list (list pystr)) :=
  omap (fun e => match e with
                 | Update sh range_name values => Some (sh, range_name, values)
                 | _ => None
                 end) l.

(** The row by the spec's words: the non-empty values of the first
    column, plus one, and never less than 2. *)
Definition spec_next_row (values : list pystr) : nat :=
  Nat.max 2 (length (filter (fun v => v <> []) values) + 1).

Definition is_remote_call {sheet : Type} (e : Effect sheet) : bool :=
  match e with
  | GetAllValues _ | AppendRow _ _ | ColValues _ _ | Update _ _ _ => true
  | _ => false
  end.

(** The worksheet calls among the effects. *)
Definition remote_calls {sheet : Type} (l : list (Effect sheet)) : list (Effect sheet) :=
  List.filter is_remote_call l.



(** ** A scripted worksheet

    A stand-in for a gspread worksheet, to run the program on examples: a
    tab answers the reads with the values it was given, records what is
    written to it, and raises on every call when it is marked as failing. *)
Module Scripted.

Record Tab := {
  all_values : list (list pystr);
  first_column : list pystr;
  failing : option Exn;
  written : list (pystr * list (list pystr))
}.

(** Worksheets are named by their tab title. *)
Definition Service := gmap pystr Tab.

Definition empty_tab : Tab :=
  {| all_values := []; first_column := []; failing := None; written := [] |}.

Definition on_tab {A} (title : pystr) (f : Tab -> A * Tab) (r : Service)
    : Outcome A * Service :=
  match r !! title with
  | None => (Raised (Exception (str "WorksheetNotFound")), r)
  | Some tab =>
      match failing tab with
      | Some e => (Raised e, r)
      | None => let '(a, tab') := f tab in (Returned a, <[title := tab']> r)
      end
  end.

#[global] Instance worksheet : Worksheet pystr Service := {
  get_all_values title := on_tab title (fun tab => (all_values tab, tab));
  append_row title row :=
    on_tab title (fun tab =>
      (tt, {| all_values := all_values tab ++ [row];
              first_column := first_column tab ++ [default [] (head row)];
              failing := failing tab; written := written tab |}));
  col_values title col :=
    on_tab title (fun tab =>
      (match col with 1 => first_column tab | _ => [] end, tab));
  update title range_name values :=
    on_tab title (fun tab =>
      (tt, {| all_values := all_values tab; first_column := first_column tab;
              failing := failing tab;
              written := written tab ++ [(range_name, values)] |}))
}.

Definition noon : DateTime :=
  {| year := 2024; month := 3; day := 9; hour := 12; minute := 0; second := 0 |}.

(** A session right after start-up, with a given disk and service. *)
Definition start (sheets0 : gmap pystr (option pystr))
    (fs : gmap pystr (list (list pystr))) (faults : list (option Exn))
    (r : Service) : World pystr Service :=
  {| session := initialize_session_state sheets0 (str "Connected to Google Sheets");
     files := fs; disk_faults := faults; remote_state := r;
     clock := fun _ => noon; ticks := 0; effects := [] |}.

Definition DUD2 : pystr := str "DUD2".

(** One empty tab for DUD2, nothing on disk, no faults. *)
Definition fresh : World pystr Service :=
  start {[ DUD2 := Some DUD2 ]} ∅ [] {[ DUD2 := empty_tab ]}.

(** No worksheet for any station. *)
Definition offline : World pystr Service := start ∅ ∅ [] ∅.

(** The DUD2 tab raises on every call. *)
Definition broken : World pystr Service :=
  start {[ DUD2 := Some DUD2 ]} ∅ []
    {[ DUD2 := {| all_values := []; first_column := [];
                  failing := Some (Exception (str "APIError: quota exceeded"));
                  written := [] |} ]}.

(** The disk refuses the first file operation. *)
Definition disk_full : World pystr Service :=
  start {[ DUD2 := Some DUD2 ]} ∅ [Some (Exception (str "No space left on device"))]
    {[ DUD2 := empty_tab ]}.

(** A tab whose first column has a blank cell between two filled ones. *)
Definition gapped : World pystr Service :=
  start {[ DUD2 := Some DUD2 ]} ∅ []
    {[ DUD2 := {| all_values := [sheet_header; []; [str "D7"]];
                  first_column := [str "Driver ID"; []; str "D7"];
                  failing := None; written := [] |} ]}.

End Scripted.

(** Scans one after the other, whatever their outcome. *)
Fixpoint run_scans {sheet remote : Type} `{Worksheet sheet remote}
    (reqs : list (pystr * pystr)) (w : World sheet remote) : World sheet remote :=
  match reqs with
  | [] => w
  | (driver_id, station) :: rest => run_scans rest (snd (scan_id driver_id station w))
  end.


(** Two disks for the backup of DUD2. *)
Module ScriptedDisk.




End ScriptedDisk.

(** ** Start-up and the page

    [initialize_session_state], [initialize_google_sheets] and [main].
    At start-up a key of [st.session_state] may still be missing, so here
    every key is optional. *)
Module Startup.

(** [SHEET_ID] *)
Definition SHEET_ID : pystr := str "1o1cjx-GzJcw7_bXfkLtkDXDzmi6bLj6GdLpab-sHoY8".

(** The check mark and the cross of the status texts. *)
Definition check_mark : N := 9989%N.
Definition cross_mark : N := 10060%N.

Definition connected_text : pystr := str "Connected to Google Sheets " ++ [check_mark].

Definition connection_failed_text (e : Exn) : pystr :=
  str "Google Sheets connection failed " ++ [cross_mark] ++ str ": " ++ exn_str e.

(** [st.session_state], key by key. *)
Record RawSession (sheet : Type) := {
  k_local_data : option (list Scan);
  k_stations : option (list pystr);
  k_status_text : option pystr;
  k_count_message : option pystr;
  k_count_color : option pystr;
  k_sheets : option (gmap pystr (option sheet));
  k_sheets_initialized : option bool
}.
Arguments k_local_data {sheet} r.
Arguments k_stations {sheet} r.
Arguments k_status_text {sheet} r.
Arguments k_count_message {sheet} r.
Arguments k_count_color {sheet} r.
Arguments k_sheets {sheet} r.
Arguments k_sheets_initialized {sheet} r.

(** A session in which nothing has run yet. *)
Definition empty_session {sheet : Type} : RawSession sheet :=
  {| k_local_data := None; k_stations := None; k_status_text := None;
     k_count_message := None; k_count_color := None; k_sheets := None;
     k_sheets_initialized := None |}.

(** What [spreadsheet.worksheet(tab_name)] does: it returns the tab, raises
    [gspread.WorksheetNotFound], or raises something else. *)
Inductive TabLookup (sheet : Type) :=
| TabFound (sh : sheet)
| TabNotFound (e : Exn)
| TabError (e : Exn).
Arguments TabFound {sheet} sh.
Arguments TabNotFound {sheet} e.
Arguments TabError {sheet} e.

(** The calls of the connection: the credentials from the Streamlit
    secrets, the credentials from a JSON file, [gspread.authorize],
    [client.open_by_key], [spreadsheet.worksheet] and
    [spreadsheet.add_worksheet]. *)
Class Gspread (creds client spreadsheet sheet remote : Type) := {
  secrets_credentials : remote -> Outcome creds * remote;
  file_credentials : pystr -> remote -> Outcome creds * remote;
  authorize : creds -> remote -> Outcome client * remote;
  open_by_key : client -> pystr -> remote -> Outcome spreadsheet * remote;
  worksheet : spreadsheet -> pystr -> remote -> TabLookup sheet * remote;
  add_worksheet : spreadsheet -> pystr -> nat -> nat -> remote -> Outcome sheet * remote
}.

(** What start-up writes on the page and prints. *)
Inductive Output :=
| StWrite (msg : pystr)
| Printed (e : Exn).

(** The application: the session key by key, and around it what a
    [World] has around its session. *)
Record App (sheet remote : Type) := {
  raw : RawSession sheet;
  app_files : gmap pystr (list (list pystr));
  app_disk_faults : list (option Exn);
  app_remote : remote;
  app_clock : nat -> DateTime;
  app_ticks : nat;
  app_effects : list (Effect sheet);
  app_output : list Output
}.
Arguments raw {sheet remote} a.
Arguments app_files {sheet remote} a.
Arguments app_disk_faults {sheet remote} a.
Arguments app_remote {sheet remote} a.
Arguments app_clock {sheet remote} a.
Arguments app_ticks {sheet remote} a.
Arguments app_effects {sheet remote} a.
Arguments app_output {sheet remote} a.

(** [initialize_session_state]: every missing key gets its default, a key
    that is there is left alone. *)
Definition initialize_session_state {sheet : Type} (s : RawSession sheet)
    : RawSession sheet :=
  {| k_local_data := Some (default [] (k_local_data s));
     k_stations := Some (default (List.map fst STATION_TABS) (k_stations s));
     k_status_text := Some (default (str "Initializing...") (k_status_text s));
     k_count_message := Some (default [] (k_count_message s));
     k_count_color := Some (default (str "lightgreen") (k_count_color s));
     k_sheets := k_sheets s;
     k_sheets_initialized := k_sheets_initialized s |}.

(** The three assignments that end [initialize_google_sheets]. *)
Definition connection_result {sheet : Type} (sheets0 : gmap pystr (option sheet))
    (status : pystr) (s : RawSession sheet) : RawSession sheet :=
  {| k_local_data := k_local_data s;
     k_stations := k_stations s;
     k_status_text := Some status;
     k_count_message := k_count_message s;
     k_count_color := k_count_color s;
     k_sheets := Some sheets0;
     k_sheets_initialized := Some true |}.

(** The typed session, once every key that the scan and the page read is
    there. *)
Definition to_session {sheet : Type} (s : RawSession sheet) : option (SessionState sheet) :=
  l ← k_local_data s;
  sts ← k_stations s;
  t ← k_status_text s;
  m ← k_count_message s;
  c ← k_count_color s;
  sh ← k_sheets s;
  Some {| local_data := l; stations := sts; status_text := t;
          count_message := m; count_color := c; sheets := sh |}.

Definition of_session {sheet : Type} (s : SessionState sheet) (flag : option bool)
    : RawSession sheet :=
  {| k_local_data := Some (local_data s);
     k_stations := Some (stations s);
     k_status_text := Some (status_text s);
     k_count_message := Some (count_message s);
     k_count_color := Some (count_color s);
     k_sheets := Some (sheets s);
     k_sheets_initialized := flag |}.

(** ** What [main] displays after the form *)

(** The status: [st.success], [st.error] or [st.info]. *)
Inductive StatusBanner :=
| StatusSuccess (msg : pystr)
| StatusError (msg : pystr)
| StatusInfo (msg : pystr).

Definition status_display (status : pystr) : option StatusBanner :=
  if truthy status then
    if bool_decide (check_mark ∈ status) then Some (StatusSuccess status)
    else if bool_decide (cross_mark ∈ status) then Some (StatusError status)
    else Some (StatusInfo status)
  else None.

(** [local_data[-10:]] *)
Definition last_ten {A} (l : list A) : list A := drop (length l - 10) l.

(** One row of the table of recent scans: a dict with four keys. *)
Definition recent_row (scan : Scan) : list (pystr * pystr) :=
  [(str "Driver ID", ev_driver_id scan); (str "Time", ev_scan_time scan);
   (str "Date", ev_scan_date scan); (str "Station", ev_station scan)].

(** The table of recent scans: the last ten, the most recent first; no
    table while nothing was scanned. *)
Definition recent_scans_table (ledger : list Scan) : option (list (list (pystr * pystr))) :=
  match ledger with
  | [] => None
  | _ :: _ => Some (List.map recent_row (rev (last_ten ledger)))
  end.

Record Page := {
  page_status : option StatusBanner;
  page_count : option Banner;
  page_recent : option (list (list (pystr * pystr)))
}.

Definition render {sheet : Type} (s : SessionState sheet) : Page :=
  {| page_status := status_display (status_text s);
     page_count := count_display s;
     page_recent := recent_scans_table (local_data s) |}.

Section Boot.

Context {creds client spreadsheet sheet remote : Type}.
Context `{WS : Worksheet sheet remote}.
Context `{GS : Gspread creds client spreadsheet sheet remote}.

Local Abbreviation A := (App sheet remote).

(** State and exceptions, over the application. *)
Definition B (X : Type) : Type := A -> Outcome X * A.

#[local] Instance B_ret : MRet B :=
  fun X (x : X) a => (Returned x, a).

#[local] Instance B_bind : MBind B :=
  fun X Y (k : X -> B Y) (m : B X) a =>
    match m a with
    | (Returned x, a') => k x a'
    | (Raised e, a') => (Raised e, a')
    end.

Definition b_try {X} (m : B X) (h : Exn -> B X) : B X :=
  fun a =>
    match m a with
    | (Returned x, a') => (Returned x, a')
    | (Raised e, a') => h e a'
    end.

Definition with_raw (f : RawSession sheet -> RawSession sheet) : B unit :=
  fun a =>
    (Returned tt,
     {| raw := f (raw a); app_files := app_files a;
        app_disk_faults := app_disk_faults a; app_remote := app_remote a;
        app_clock := app_clock a; app_ticks := app_ticks a;
        app_effects := app_effects a; app_output := app_output a |}).

Definition output (o : Output) : B unit :=
  fun a =>
    (Returned tt,
     {| raw := raw a; app_files := app_files a;
        app_disk_faults := app_disk_faults a; app_remote := app_remote a;
        app_clock := app_clock a; app_ticks := app_ticks a;
        app_effects := app_effects a; app_output := app_output a ++ [o] |}).

Definition set_remote (r : remote) (a : A) : A :=
  {| raw := raw a; app_files := app_files a;
     app_disk_faults := app_disk_faults a; app_remote := r;
     app_clock := app_clock a; app_ticks := app_ticks a;
     app_effects := app_effects a; app_output := app_output a |}.

(** A call of the connection that returns or raises. *)
Definition call {X} (f : remote -> Outcome X * remote) : B X :=
  fun a => let '(r, rs) := f (app_remote a) in (r, set_remote rs a).

(** [spreadsheet.worksheet(tab_name)], with its three ways out. *)
Definition lookup_tab (sp : spreadsheet) (tab_name : pystr) : B (TabLookup sheet) :=
  fun a => let '(r, rs) := worksheet sp tab_name (app_remote a) in
           (Returned r, set_remote rs a).

(** The inner [try]: the credentials of the secrets, and on any exception
    those of the file. *)
Definition load_credentials : B creds :=
  b_try (call secrets_credentials)
        (fun _ => call (file_credentials (str "service_account1.json"))).

(** The loop over [STATION_TABS.items()]. *)
Fixpoint open_tabs (sp : spreadsheet) (tabs : list (pystr * pystr))
    (sheets0 : gmap pystr (option sheet)) : B (gmap pystr (option sheet)) :=
  match tabs with
  | [] => mret sheets0
  | (station, tab_name) :: rest =>
      r ← lookup_tab sp tab_name;
      match r with
      | TabFound sh => open_tabs sp rest (<[station := Some sh]> sheets0)
      | TabNotFound _ =>
          output (StWrite (str "Tab '" ++ tab_name
                             ++ str "' not found. Creating new tab..."));;
          sh ← call (add_worksheet sp tab_name 1000 10);
          open_tabs sp rest (<[station := Some sh]> sheets0)
      | TabError e =>
          output (StWrite (str "Failed to open tab for " ++ station
                             ++ str ": " ++ exn_str e));;
          open_tabs sp rest (<[station := None]> sheets0)
      end
  end.

(** The outer [try] of [initialize_google_sheets]. *)
Definition connect : B unit :=
  c ← load_credentials;
  cl ← call (authorize c);
  sp ← call (open_by_key cl SHEET_ID);
  sheets0 ← open_tabs sp STATION_TABS ∅;
  with_raw (connection_result sheets0 connected_text).

(** [initialize_google_sheets] *)
Definition initialize_google_sheets : B unit :=
  fun a =>
    match k_sheets_initialized (raw a) with
    | None =>
        b_try connect
          (fun e =>
             with_raw (connection_result ∅ (connection_failed_text e));;
             output (Printed e)) a
    | Some _ => (Returned tt, a)
    end.

(** The application as a [World], when the session has all its keys. *)
Definition to_world (a : A) : option (World sheet remote) :=
  s ← to_session (raw a);
  Some {| session := s; files := app_files a; disk_faults := app_disk_faults a;
          remote_state := app_remote a; clock := app_clock a;
          ticks := app_ticks a; effects := app_effects a |}.

Definition of_world (w : World sheet remote) (a : A) : A :=
  {| raw := of_session (session w) (k_sheets_initialized (raw a));
     app_files := files w; app_disk_faults := disk_faults w;
     app_remote := remote_state w; app_clock := clock w;
     app_ticks := ticks w; app_effects := effects w;
     app_output := app_output a |}.

(** The scans of [main] run on the session with all its keys; reading a
    key that is missing is an [AttributeError]. *)
Definition on_world {X} (m : World sheet remote -> Outcome X * World sheet remote) : B X :=
  fun a =>
    match to_world a with
    | None => (Raised (Exception (str "AttributeError")), a)
    | Some w => let '(r, w') := m w in (r, of_world w' a)
    end.

(** [main]: one run of the script.  [selected_station], [driver_id] and
    [scan_button] are what the select box, the text input and the submit
    button return in this run; the result is what is displayed after the
    form. *)
Definition main (selected_station driver_id : pystr) (scan_button : bool) : B Page :=
  with_raw initialize_session_state;;
  initialize_google_sheets;;
  on_world (submit_form scan_button driver_id selected_station);;
  on_world (fun w => (Returned (render (session w)), w)).

End Boot.

End Startup.

(** ** More vocabulary *)

Definition is_file_effect {sheet : Type} (e : Effect sheet) : bool :=
  match e with
  | OpenAppend _ | WriteRow _ _ => true
  | _ => false
  end.

(** The driver id and the station of a ledger entry. *)
Definition request_of (ev : Scan) : pystr * pystr := (ev_driver_id ev, ev_station ev).

(** The requests that [scan_id] accepts. *)
Definition accepted (reqs : list (pystr * pystr)) : list (pystr * pystr) :=
  filter (fun r => forallb isspace r.1 = false) reqs.

Section Emits.

Context {sheet remote : Type} `{WS : Worksheet sheet remote}.

(** The effects of an action all satisfy [P]. *)
Definition emits {X} (P : Effect sheet -> Prop) (m : @M sheet remote X) : Prop :=
  forall w, exists l, effects (snd (m w)) = effects w ++ l /\ Forall P l.

End Emits.

(** ** A scripted connection

    A stand-in for the Streamlit secrets, the key file and the gspread
    client around the scripted worksheets, with switches for the failures
    of start-up. *)
Module ScriptedCloud.

Record Cloud := {
  service : Scripted.Service;
  secrets : option Exn;
  key_file : option Exn;
  api : option Exn
}.

Definition with_service (s : Scripted.Service) (c : Cloud) : Cloud :=
  {| service := s; secrets := secrets c; key_file := key_file c; api := api c |}.

Definition lift {X} (f : Scripted.Service -> Outcome X * Scripted.Service) (c : Cloud)
    : Outcome X * Cloud :=
  let '(r, s) := f (service c) in (r, with_service s c).

#[global] Instance worksheet : Worksheet pystr Cloud := {
  get_all_values title := lift (get_all_values title);
  append_row title row := lift (append_row title row);
  col_values title col := lift (col_values title col);
  update title range_name values := lift (update title range_name values)
}.

Definition answer (fault : option Exn) (c : Cloud) : Outcome unit * Cloud :=
  match fault with
  | Some e => (Raised e, c)
  | None => (Returned tt, c)
  end.

(** A client for which the tabs in [unreadable] raise an API error, the
    tabs in [missing] are not found, and the creation of a tab raises
    [deny], if any. *)
Definition client (unreadable missing : list pystr) (deny : option Exn)
    : Startup.Gspread unit unit unit pystr Cloud := {|
  Startup.secrets_credentials c := answer (secrets c) c;
  Startup.file_credentials _ c := answer (key_file c) c;
  Startup.authorize _ c := (Returned tt, c);
  Startup.open_by_key _ _ c := answer (api c) c;
  Startup.worksheet _ tab_name c :=
    if bool_decide (tab_name ∈ unreadable) then
      (Startup.TabError (Exception (str "APIError: internal error")), c)
    else if bool_decide (tab_name ∈ missing) then
      (Startup.TabNotFound (Exception tab_name), c)
    else (Startup.TabFound tab_name, c);
  Startup.add_worksheet _ title _ _ c :=
    match deny with
    | Some e => (Raised e, c)
    | None => (Returned title, with_service (<[title := Scripted.empty_tab]> (service c)) c)
    end
|}.

(** The client with every tab in place. *)
#[global] Instance gspread : Startup.Gspread unit unit unit pystr Cloud :=
  client [] [] None.

(** One empty tab for each station; the secrets are not there, the key
    file is. *)
Definition cloud (api0 : option Exn) : Cloud :=
  {| service := list_to_map ((fun st => (st.1, Scripted.empty_tab)) <$> STATION_TABS);
     secrets := Some (Exception (str "KeyError: gcp_service_account"));
     key_file := None; api := api0 |}.

(** The application before its first run. *)
Definition boot (c : Cloud) : Startup.App pystr Cloud :=
  {| Startup.raw := Startup.empty_session; Startup.app_files := ∅;
     Startup.app_disk_faults := []; Startup.app_remote := c;
     Startup.app_clock := fun _ => Scripted.noon; Startup.app_ticks := 0;
     Startup.app_effects := []; Startup.app_output := [] |}.

(** The session once the connection has succeeded, as a world. *)
Definition running : World pystr Cloud :=
  {| session :=
       initialize_session_state
         (list_to_map ((fun st => (st.1, Some st.2)) <$> STATION_TABS))
         Startup.connected_text;
     files := ∅; disk_faults := []; remote_state := cloud None;
     clock := fun _ => Scripted.noon; ticks := 0; effects := [] |}.

(** The application after its first run. *)
Definition started : Startup.App pystr Cloud :=
  {| Startup.raw := Startup.of_session (session running) (Some true);
     Startup.app_files := ∅; Startup.app_disk_faults := [];
     Startup.app_remote := cloud None;
     Startup.app_clock := fun _ => Scripted.noon; Startup.app_ticks := 0;
     Startup.app_effects := []; Startup.app_output := [] |}.

End ScriptedCloud.

(** * Properties *)

Example strftime_sample :
  strftime_full {| year := 2024; month := 3; day := 9;
                   hour := 7; minute := 5; second := 0 |}
  = str "2024-03-09 07:05:00".
Proof. reflexivity. Qed.

Example strip_sample : strip (str "  D123 ") = str "D123".
Proof. reflexivity. Qed.

Example six_scans_message :
  let w := run_scans (replicate 6 (str "D123", Scripted.DUD2)) Scripted.fresh in
  count_message (session w)
    = str "Driver D123 scanned 6 times at DUD2 - Take break after this delivery"
  /\ count_color (session w) = str "yellow"
  /\ length <$> (files w !! str "DUD2_scans.csv") = Some 7.
Proof. vm_compute. auto. Qed.

(** ** Stripping *)

Lemma lstrip_nil (s : pystr) : lstrip s = [] <-> forallb isspace s = true.
Proof.
  induction s as [|c s IH]; simpl; [tauto|].
  destruct (isspace c); simpl; [exact IH|].
  split; discriminate.
Qed.

Lemma forallb_isspace_rev (s : pystr) :
  forallb isspace (rev s) = forallb isspace s.
Proof.
  induction s as [|c s IH]; [reflexivity|].
  change (rev (c :: s)) with (rev s ++ [c]).
  rewrite forallb_app, IH. cbn [forallb]. rewrite andb_true_r. apply andb_comm.
Qed.

Lemma lstrip_suffix (s : pystr) : exists p, s = p ++ lstrip s /\ forallb isspace p = true.
Proof.
  induction s as [|c s [p [IH1 IH2]]]; simpl.
  - exists []. auto.
  - destruct (isspace c) eqn:E.
    + exists (c :: p). simpl. rewrite E, IH2. split; [congruence|reflexivity].
    + exists []. auto.
Qed.

(** A string strips to nothing exactly when all its characters are
    whitespace. *)
Lemma strip_nil (s : pystr) : strip s = [] <-> forallb isspace s = true.
Proof.
  unfold strip, rstrip.
  destruct (lstrip_suffix s) as [p [Hs Hp]].
  split.
  - intros H0.
    assert (Hr : lstrip (rev (lstrip s)) = []).
    { destruct (lstrip (rev (lstrip s))); [reflexivity|].
      apply (f_equal (@length _)) in H0. rewrite length_rev in H0. discriminate. }
    apply lstrip_nil in Hr. rewrite forallb_isspace_rev in Hr.
    rewrite Hs, forallb_app, Hp, Hr. reflexivity.
  - intros Hall. apply lstrip_nil in Hall. rewrite Hall. reflexivity.
Qed.

Lemma blank_iff (s : pystr) :
  negb (truthy (strip s)) = true <-> forallb isspace s = true.
Proof.
  rewrite <- strip_nil. destruct (strip s); simpl; split; congruence.
Qed.

(** ** Framing: what an action leaves alone *)

Section Frame.

Context {sheet remote : Type} `{WS : Worksheet sheet remote}.

Local Abbreviation W := (World sheet remote).
Local Abbreviation M := (@M sheet remote).

Lemma preserves_ret {A X} (f : W -> X) (a : A) : preserves f (mret a : M A).
Proof. intros w. reflexivity. Qed.

Lemma preserves_bind {A B X} (f : W -> X) (m : M A) (k : A -> M B) :
  preserves f m -> (forall a, preserves f (k a)) -> preserves f (m ≫= k).
Proof.
  intros Hm Hk w. unfold mbind, M_bind.
  specialize (Hm w). destruct (m w) as [[a|e] w1]; simpl in *.
  - rewrite Hk. exact Hm.
  - exact Hm.
Qed.

Lemma preserves_try {A X} (f : W -> X) (m : M A) (h : Exn -> M A) :
  preserves f m -> (forall e, preserves f (h e)) -> preserves f (try_except m h).
Proof.
  intros Hm Hh w. unfold try_except.
  specialize (Hm w). destruct (m w) as [[a|e] w1]; simpl in *.
  - exact Hm.
  - rewrite Hh. exact Hm.
Qed.

Lemma never_raises_ret {A} (a : A) : never_raises (mret a : M A).
Proof. intros w. exists a. reflexivity. Qed.

Lemma never_raises_bind {A B} (m : M A) (k : A -> M B) :
  never_raises m -> (forall a, never_raises (k a)) -> never_raises (m ≫= k).
Proof.
  intros Hm Hk w. unfold mbind, M_bind.
  destruct (Hm w) as [a Ha]. destruct (m w) as [[a'|e] w1]; simpl in *.
  - apply Hk.
  - discriminate.
Qed.

Lemma never_raises_try {A} (m : M A) (h : Exn -> M A) :
  (forall e, never_raises (h e)) -> never_raises (try_except m h).
Proof.
  intros Hh w. unfold try_except.
  destruct (m w) as [[a|e] w1]; simpl.
  - exists a. reflexivity.
  - apply Hh.
Qed.

End Frame.

(** Actions of the program, one rule at a time. *)
Ltac frame_prim :=
  let w := fresh "w" in
  intros w;
  cbv [with_session local_data_append set_status_text set_count_message
       set_count_color get_session now st_error print_traceback isfile
       open_append writerow call_remote ws_get_all_values ws_append_row
       ws_col_values ws_update emit set_disk disk_answer];
  repeat case_match; simpl; try reflexivity; eauto.

Ltac frame_step :=
  match goal with
  | |- preserves _ (mret _) => apply preserves_ret
  | |- preserves _ (_ ≫= _) => apply preserves_bind; [|intros ?]
  | |- preserves _ (try_except _ _) => apply preserves_try; [|intros ?]
  | |- preserves _ (if ?b then _ else _) => destruct b
  | |- preserves _ (match ?x with _ => _ end) => destruct x
  | |- never_raises (mret _) => apply never_raises_ret
  | |- never_raises (_ ≫= _) => apply never_raises_bind; [|intros ?]
  | |- never_raises (try_except _ _) => apply never_raises_try; intros ?
  | |- never_raises (if ?b then _ else _) => destruct b
  | |- never_raises (match ?x with _ => _ end) => destruct x
  end.

Ltac frame := repeat frame_step; try frame_prim.

Section Facts.

Context {sheet remote : Type} `{WS : Worksheet sheet remote}.

Local Abbreviation W := (World sheet remote).

#[local] Arguments str : simpl never.

(** *** The CSV backup touches neither the session nor the service *)

Lemma save_to_csv_session (d t dt st : pystr) :
  preserves (session : W -> _) (save_to_csv d t dt st).
Proof. unfold save_to_csv. frame. Qed.

Lemma save_to_csv_remote (d t dt st : pystr) :
  preserves (remote_state : W -> _) (save_to_csv d t dt st).
Proof. unfold save_to_csv. frame. Qed.

(** *** The sync touches neither the ledger, the alert nor the disk *)

Lemma sync_ledger (d t dt st : pystr) :
  preserves (fun w : W => local_data (session w)) (sync_single_scan d t dt st).
Proof. unfold sync_single_scan, sync_body. frame. Qed.

Lemma sync_count_message (d t dt st : pystr) :
  preserves (fun w : W => count_message (session w)) (sync_single_scan d t dt st).
Proof. unfold sync_single_scan, sync_body. frame. Qed.

Lemma sync_count_color (d t dt st : pystr) :
  preserves (fun w : W => count_color (session w)) (sync_single_scan d t dt st).
Proof. unfold sync_single_scan, sync_body. frame. Qed.

Lemma sync_sheets (d t dt st : pystr) :
  preserves (fun w : W => sheets (session w)) (sync_single_scan d t dt st).
Proof. unfold sync_single_scan, sync_body. frame. Qed.

Lemma sync_files (d t dt st : pystr) :
  preserves (files : W -> _) (sync_single_scan d t dt st).
Proof. unfold sync_single_scan, sync_body. frame. Qed.

Lemma sync_disk_faults (d t dt st : pystr) :
  preserves (disk_faults : W -> _) (sync_single_scan d t dt st).
Proof. unfold sync_single_scan, sync_body. frame. Qed.

(** *** The sync never raises *)

Lemma sync_never_raises (d t dt st : pystr) :
  never_raises (sync_single_scan (sheet:=sheet) (remote:=remote) d t dt st).
Proof. unfold sync_single_scan. frame. Qed.

Lemma sync_returns (d t dt st : pystr) (w : W) :
  sync_single_scan d t dt st w = (Returned tt, snd (sync_single_scan d t dt st w)).
Proof.
  destruct (sync_never_raises d t dt st w) as [[] Ha].
  destruct (sync_single_scan d t dt st w) as [o w']. simpl in *. congruence.
Qed.

(** *** The steps of a valid scan *)

(** [logged] is the world [scan_id] hands to the backup. *)
Lemma logged_spec (d st : pystr) (w : W) :
  (t1 ← now;
   t2 ← now;
   local_data_append
     {| ev_driver_id := d; ev_scan_time := strftime_HMS t1;
        ev_scan_date := strftime_Ymd t2; ev_station := st |};;
   set_status_text (str "Scanned locally: " ++ d ++ str " @ " ++ st)) w
  = (Returned tt, logged d st w).
Proof. reflexivity. Qed.

Lemma scan_id_blank (d st : pystr) (w : W) :
  truthy (strip d) = false ->
  scan_id d st w = (Returned tt, emit (StError (str "Please enter a Driver ID")) w).
Proof. intros Hb. unfold scan_id. rewrite Hb. reflexivity. Qed.

Lemma scan_id_raised (d st : pystr) (w w1 : W) (e : Exn) :
  truthy (strip d) = true ->
  backup d st w = (Raised e, w1) ->
  scan_id d st w = (Raised e, w1).
Proof.
  intros Hv Hb. unfold scan_id. rewrite Hv. simpl.
  unfold backup in Hb. unfold mbind, M_bind. simpl.
  change (save_to_csv d _ _ st _) with
    (save_to_csv d (ev_scan_time (scan_event d st w))
       (ev_scan_date (scan_event d st w)) st (logged d st w)).
  rewrite Hb. reflexivity.
Qed.

Lemma scan_id_returned (d st : pystr) (w w1 : W) (u : unit) :
  truthy (strip d) = true ->
  backup d st w = (Returned u, w1) ->
  scan_id d st w =
    sync_single_scan d (ev_scan_time (scan_event d st w))
      (ev_scan_date (scan_event d st w)) st
      (snd (update_alert d (counted d st w) st w1)).
Proof.
  intros Hv Hb. unfold scan_id. rewrite Hv. simpl.
  pose proof (save_to_csv_session d (ev_scan_time (scan_event d st w))
                (ev_scan_date (scan_event d st w)) st (logged d st w)) as Hs.
  unfold backup in Hb. unfold mbind, M_bind. simpl.
  change (save_to_csv d _ _ st _) with
    (save_to_csv d (ev_scan_time (scan_event d st w))
       (ev_scan_date (scan_event d st w)) st (logged d st w)).
  rewrite Hb in *. simpl in Hs.
  unfold get_session. unfold counted. rewrite Hs. simpl.
  destruct (update_alert _ _ _ w1) as [[[]|e] w2] eqn:Hu; [reflexivity|].
  exfalso. revert Hu. unfold update_alert. case_match; discriminate.
Qed.

Lemma valid_iff (d : pystr) :
  truthy (strip d) = true <-> forallb isspace d = false.
Proof.
  pose proof (blank_iff d) as Hb.
  destruct (truthy (strip d)), (forallb isspace d); simpl in *;
    intuition congruence.
Qed.

Lemma update_alert_returns (d st : pystr) (c : nat) (w : W) :
  update_alert d c st w = (Returned tt, snd (update_alert d c st w)).
Proof. unfold update_alert. case_match; reflexivity. Qed.

Lemma update_alert_message (d st : pystr) (c : nat) (w : W) :
  count_message (session (snd (update_alert d c st w)))
  = if 5 <? c then break_message d c st else normal_message d c st.
Proof. unfold update_alert. case_match; reflexivity. Qed.

Lemma update_alert_color (d st : pystr) (c : nat) (w : W) :
  count_color (session (snd (update_alert d c st w)))
  = if 5 <? c then str "yellow" else str "lightgreen".
Proof. unfold update_alert. case_match; reflexivity. Qed.

Lemma update_alert_ledger (d st : pystr) (c : nat) :
  preserves (fun w : W => local_data (session w)) (update_alert d c st).
Proof. unfold update_alert. frame. Qed.

Lemma update_alert_sheets (d st : pystr) (c : nat) :
  preserves (fun w : W => sheets (session w)) (update_alert d c st).
Proof. unfold update_alert. frame. Qed.

Lemma update_alert_files (d st : pystr) (c : nat) :
  preserves (files : W -> _) (update_alert d c st).
Proof. unfold update_alert. frame. Qed.

Lemma update_alert_remote (d st : pystr) (c : nat) :
  preserves (remote_state : W -> _) (update_alert d c st).
Proof. unfold update_alert. frame. Qed.

Lemma update_alert_effects (d st : pystr) (c : nat) :
  preserves (effects : W -> _) (update_alert d c st).
Proof. unfold update_alert. frame. Qed.

(** Whatever the backup does, the scan is in the ledger afterwards. *)
Lemma scan_id_ledger (d st : pystr) (w : W) :
  truthy (strip d) = true ->
  local_data (session (snd (scan_id d st w)))
  = local_data (session w) ++ [scan_event d st w].
Proof.
  intros Hv.
  pose proof (save_to_csv_session d (ev_scan_time (scan_event d st w))
                (ev_scan_date (scan_event d st w)) st (logged d st w)) as Hs.
  fold (backup d st w) in Hs.
  destruct (backup d st w) as [[u|e] w1] eqn:Hb; simpl in Hs.
  - rewrite (scan_id_returned d st w w1 u Hv Hb).
    rewrite (sync_ledger _ _ _ _ _).
    rewrite (update_alert_ledger d st _ w1). rewrite Hs. reflexivity.
  - rewrite (scan_id_raised d st w w1 e Hv Hb). simpl. rewrite Hs. reflexivity.
Qed.

(** After a scan that returned, the alert is the one of its count. *)
Lemma scan_id_alert (d st : pystr) (w : W) :
  truthy (strip d) = true ->
  fst (scan_id d st w) = Returned tt ->
  count_message (session (snd (scan_id d st w)))
    = (if 5 <? counted d st w then break_message d (counted d st w) st
       else normal_message d (counted d st w) st)
  /\ count_color (session (snd (scan_id d st w)))
    = (if 5 <? counted d st w then str "yellow" else str "lightgreen").
Proof.
  intros Hv Hret.
  destruct (backup d st w) as [[u|e] w1] eqn:Hb.
  - rewrite (scan_id_returned d st w w1 u Hv Hb).
    rewrite (sync_count_message _ _ _ _ _), (sync_count_color _ _ _ _ _).
    rewrite update_alert_message, update_alert_color. auto.
  - rewrite (scan_id_raised d st w w1 e Hv Hb) in Hret. discriminate.
Qed.

Lemma scan_count_app (d dt st : pystr) (l1 l2 : list Scan) :
  scan_count d dt st (l1 ++ l2) = scan_count d dt st l1 + scan_count d dt st l2.
Proof. unfold scan_count, today_scans. rewrite filter_app, length_app. reflexivity. Qed.

Lemma counted_succ (d st : pystr) (w : W) :
  counted d st w
  = S (scan_count d (ev_scan_date (scan_event d st w)) st (local_data (session w))).
Proof.
  unfold counted. rewrite scan_count_app.
  unfold scan_count at 2, today_scans.
  rewrite filter_cons_True by (repeat split; reflexivity).
  simpl. lia.
Qed.

End Facts.

(** ** Sessions *)

Section Sessions.

Context {sheet remote : Type} `{WS : Worksheet sheet remote}.

Local Abbreviation W := (World sheet remote).

Lemma scan_id_clock (d st : pystr) :
  preserves (clock : W -> _) (scan_id d st).
Proof.
  unfold scan_id, save_to_csv, update_alert, sync_single_scan, sync_body. frame.
Qed.

Lemma run_scans_clock (reqs : list (pystr * pystr)) (w : W) :
  clock (run_scans reqs w) = clock w.
Proof.
  revert w. induction reqs as [|[d st] reqs IH]; intros w; simpl; [reflexivity|].
  rewrite IH. apply scan_id_clock.
Qed.

(** On a day that does not change, the ledger counts the requests. *)
Lemma run_scans_count (d st today : pystr) (reqs : list (pystr * pystr)) (w : W) :
  truthy (strip d) = true ->
  (forall k, strftime_Ymd (clock w k) = today) ->
  scan_count d today st (local_data (session (run_scans reqs w)))
  = scan_count d today st (local_data (session w)) + requests_for d st reqs.
Proof.
  intros Hv. revert w.
  induction reqs as [|[d' st'] reqs IH]; intros w Hday; simpl.
  - unfold requests_for. simpl. lia.
  - rewrite IH by (intros k; rewrite scan_id_clock; apply Hday).
    unfold requests_for. destruct (truthy (strip d')) eqn:Hv'.
    + rewrite (scan_id_ledger d' st' w Hv'), scan_count_app.
      unfold scan_count at 2, today_scans.
      destruct (decide ((d', st') = (d, st))) as [Heq|Hne].
      * rewrite (filter_cons_True _ (d', st')) by exact Heq.
        injection Heq as -> ->.
        rewrite filter_cons_True by (split; [reflexivity|split; [apply Hday|reflexivity]]).
        simpl. lia.
      * rewrite (filter_cons_False _ (d', st')) by exact Hne.
        rewrite filter_cons_False; [simpl; lia|].
        intros (H1 & _ & H3). simpl in H1, H3. congruence.
    + rewrite (scan_id_blank d' st' w Hv'). simpl.
      rewrite filter_cons_False; [lia|].
      intros Heq. injection Heq as -> ->. congruence.
Qed.

End Sessions.

(** ** The claims *)

Section Claims.

Context {sheet remote : Type} `{WS : Worksheet sheet remote}.

Local Abbreviation W := (World sheet remote).

(** C1. The count a scan computes is the number of ledger entries with
    its driver id, scan date and station, the entry just appended
    included: one more than the matching entries before it.  In a session
    that starts with an empty ledger, on one day, the scan that follows
    n-1 requests for the same driver and station counts n, and the first
    one counts 1. *)
Theorem occurrence_count (d st : pystr) :
  forallb isspace d = false ->
  (forall w : W,
     fst (scan_id d st w) = Returned tt ->
     let ev := scan_event d st w in
     let w' := snd (scan_id d st w) in
     let c := length (today_scans d (ev_scan_date ev) st (local_data (session w'))) in
     local_data (session w') = local_data (session w) ++ [ev]
     /\ c = S (scan_count d (ev_scan_date ev) st (local_data (session w)))
     /\ count_message (session w')
        = (if 5 <? c then break_message d c st else normal_message d c st))
  /\ (forall (w0 : W) (reqs : list (pystr * pystr)) (today : pystr),
        local_data (session w0) = [] ->
        (forall k, strftime_Ymd (clock w0 k) = today) ->
        let w := run_scans reqs w0 in
        fst (scan_id d st w) = Returned tt ->
        let c := length (today_scans d today st
                           (local_data (session (snd (scan_id d st w))))) in
        c = S (requests_for d st reqs)
        /\ (requests_for d st reqs = 0 -> c = 1)
        /\ count_message (session (snd (scan_id d st w)))
           = (if 5 <? c then break_message d c st else normal_message d c st)).
Proof.
  intros Hd. apply valid_iff in Hd.
  assert (Hstep : forall w : W,
            length (today_scans d (ev_scan_date (scan_event d st w)) st
                      (local_data (session (snd (scan_id d st w)))))
            = counted d st w).
  { intros w. rewrite (scan_id_ledger d st w Hd). reflexivity. }
  split.
  - intros w Hret. cbv zeta. rewrite Hstep.
    split; [apply scan_id_ledger, Hd|].
    split; [apply counted_succ|].
    apply scan_id_alert; assumption.
  - intros w0 reqs today Hempty Hday. cbv zeta. intros Hret.
    assert (Hdate : ev_scan_date (scan_event d st (run_scans reqs w0)) = today).
    { simpl. rewrite run_scans_clock. apply Hday. }
    pose proof (Hstep (run_scans reqs w0)) as Hc. rewrite Hdate in Hc.
    pose proof (counted_succ d st (run_scans reqs w0)) as Hs. rewrite Hdate in Hs.
    rewrite (run_scans_count d st today reqs w0 Hd Hday), Hempty in Hs.
    change (scan_count d today st []) with 0 in Hs. simpl in Hs.
    rewrite Hc, Hs.
    split; [reflexivity|]. split; [intros ->; reflexivity|].
    rewrite <- Hs. apply scan_id_alert; assumption.
Qed.

(** C2. After a scan that went through, with count c: above 5 the colour
    is yellow, the message reads "Driver D scanned c times at S - Take
    break after this delivery" and [main] shows it as a warning; up to 5
    the colour is lightgreen, the message reads "Driver D scanned c times
    today at S" and [main] shows it as a success.  So 5 is normal and 6 is
    a break. *)
Theorem alert_by_count (d st : pystr) (w : W) :
  forallb isspace d = false ->
  fst (scan_id d st w) = Returned tt ->
  let s' := session (snd (scan_id d st w)) in
  let c := length (today_scans d (ev_scan_date (scan_event d st w)) st (local_data s')) in
  (5 < c ->
     count_color s' = str "yellow"
     /\ count_message s'
        = str "Driver " ++ d ++ str " " ++ spec_break_text c st
     /\ count_display s' = Some (Warning (count_message s')))
  /\ (c <= 5 ->
       count_color s' = str "lightgreen"
       /\ count_message s'
          = str "Driver " ++ d ++ str " " ++ spec_normal_text c st
       /\ count_display s' = Some (Success (count_message s')))
  /\ (c = 5 -> count_color s' = str "lightgreen")
  /\ (c = 6 -> count_color s' = str "yellow").
Proof.
  intros Hd Hret. apply valid_iff in Hd. cbv zeta.
  rewrite (scan_id_ledger d st w Hd).
  fold (scan_count d (ev_scan_date (scan_event d st w)) st
          (local_data (session w) ++ [scan_event d st w])).
  fold (counted d st w).
  destruct (scan_id_alert d st w Hd Hret) as [Hm Hc].
  unfold count_display. rewrite Hm, Hc.
  destruct (Nat.ltb_spec 5 (counted d st w)) as [Hgt|Hle].
  - split; [intros _|split; [lia|split; [lia|reflexivity]]].
    split; [reflexivity|]. split; [reflexivity|reflexivity].
  - split; [lia|]. split; [intros _|split; [reflexivity|lia]].
    split; [reflexivity|]. split; [reflexivity|reflexivity].
Qed.

(** C3. A scan whose driver id is empty or all whitespace is answered with
    the error "Please enter a Driver ID" and returns; the session, the
    files, the pending disk answers, the service and the clock are as
    before, and the error is the only effect. *)
Theorem blank_driver_id_rejected (d st : pystr) (w : W) :
  forallb isspace d = true ->
  let w' := snd (scan_id d st w) in
  fst (scan_id d st w) = Returned tt
  /\ effects w' = effects w ++ [StError (str "Please enter a Driver ID")]
  /\ session w' = session w
  /\ files w' = files w
  /\ disk_faults w' = disk_faults w
  /\ remote_state w' = remote_state w
  /\ ticks w' = ticks w.
Proof.
  intros Hb. apply blank_iff in Hb.
  rewrite (scan_id_blank d st w) by (destruct (truthy (strip d)); [discriminate|reflexivity]).
  simpl. repeat split; reflexivity.
Qed.

End Claims.

Lemma occurrence_count_witness :
  let w := run_scans (replicate 5 (str "D123", Scripted.DUD2)) Scripted.fresh in
  forallb isspace (str "D123") = false
  /\ fst (scan_id (str "D123") Scripted.DUD2 w) = Returned tt
  /\ length (today_scans (str "D123") (str "2024-03-09") Scripted.DUD2
               (local_data (session (snd (scan_id (str "D123") Scripted.DUD2 w))))) = 6.
Proof.
  cbv zeta.
  assert (Hret : fst (scan_id (str "D123") Scripted.DUD2
                        (run_scans (replicate 5 (str "D123", Scripted.DUD2)) Scripted.fresh))
                 = Returned tt) by (vm_compute; reflexivity).
  split; [reflexivity|]. split; [exact Hret|].
  destruct (occurrence_count (sheet:=pystr) (remote:=Scripted.Service)
              (str "D123") Scripted.DUD2 eq_refl) as [_ Hn].
  destruct (Hn Scripted.fresh (replicate 5 (str "D123", Scripted.DUD2)) (str "2024-03-09")
              eq_refl (fun k => eq_refl) Hret) as [Hc _].
  exact Hc.
Defined.

Lemma alert_by_count_witness :
  let w := run_scans (replicate 5 (str "D123", Scripted.DUD2)) Scripted.fresh in
  forallb isspace (str "D123") = false
  /\ fst (scan_id (str "D123") Scripted.DUD2 w) = Returned tt
  /\ count_color (session (snd (scan_id (str "D123") Scripted.DUD2 w))) = str "yellow".
Proof.
  cbv zeta.
  assert (Hret : fst (scan_id (str "D123") Scripted.DUD2
                        (run_scans (replicate 5 (str "D123", Scripted.DUD2)) Scripted.fresh))
                 = Returned tt) by (vm_compute; reflexivity).
  split; [reflexivity|]. split; [exact Hret|].
  destruct (alert_by_count (str "D123") Scripted.DUD2 _ eq_refl Hret) as (_ & _ & _ & H6).
  apply H6. vm_compute. reflexivity.
Defined.

Lemma blank_driver_id_rejected_witness :
  forallb isspace (str "   ") = true
  /\ fst (scan_id (str "   ") Scripted.DUD2 Scripted.fresh) = Returned tt
  /\ files (snd (scan_id (str "   ") Scripted.DUD2 Scripted.fresh)) = ∅.
Proof.
  split; [reflexivity|].
  destruct (blank_driver_id_rejected (str "   ") Scripted.DUD2 Scripted.fresh eq_refl)
    as (Hret & _ & _ & Hf & _).
  split; [exact Hret|exact Hf].
Defined.

(** ** What the backup writes *)

Section Backup.

#[local] Arguments str : simpl never.

Context {sheet remote : Type} `{WS : Worksheet sheet remote}.

Local Abbreviation W := (World sheet remote).

Ltac run_backup st :=
  unfold save_to_csv, mbind, M_bind, isfile, open_append,
    writerow, now, disk_answer, set_disk, emit, mret, M_ret;
  cbn [session files disk_faults remote_state clock ticks effects fst snd negb];
  fold (csv_name st).

(** A backup that returns has appended the row of the scan, after the
    header when the file was not there. *)
Lemma save_to_csv_returned (d t dt st : pystr) (w w1 : W) (u : unit) :
  save_to_csv d t dt st w = (Returned u, w1) ->
  files w1 = <[csv_name st :=
                 default [csv_header] (files w !! csv_name st)
                   ++ [data_row d t dt st (clock w (ticks w))]]> (files w).
Proof.
  unfold data_row. run_backup st.
  destruct (files w !! csv_name st) as [c|] eqn:Hf.
  - rewrite bool_decide_eq_true_2 by eauto.
    destruct (disk_faults w) as [|[e|] [|[e'|] rest]];
      cbn [session files disk_faults remote_state clock ticks effects fst snd negb];
      rewrite ?Hf; intros Heq; inversion Heq; reflexivity.
  - rewrite bool_decide_eq_false_2 by (intros [? ?]; discriminate).
    destruct (disk_faults w) as [|[e|] [|[e'|] [|[e''|] rest]]];
      cbn [session files disk_faults remote_state clock ticks effects fst snd negb];
      rewrite ?Hf, ?lookup_insert_eq; intros Heq; inversion Heq;
      rewrite ?insert_insert_eq; reflexivity.
Qed.


(** With no fault pending the backup returns and no fault is pending
    afterwards. *)
Lemma save_to_csv_healthy (d t dt st : pystr) (w : W) :
  disk_faults w = [] ->
  fst (save_to_csv d t dt st w) = Returned tt
  /\ disk_faults (snd (save_to_csv d t dt st w)) = [].
Proof.
  intros Hd. run_backup st. rewrite Hd.
  destruct (files w !! csv_name st) as [c|] eqn:Hf.
  - rewrite bool_decide_eq_true_2 by eauto.
    cbn [session files disk_faults remote_state clock ticks effects fst snd negb].
    auto.
  - rewrite bool_decide_eq_false_2 by (intros [? ?]; discriminate).
    cbn [session files disk_faults remote_state clock ticks effects fst snd negb].
    auto.
Qed.

End Backup.

(** ** What the sync does *)

Section Sync.

#[local] Arguments str : simpl never.

Context {sheet remote : Type} `{WS : Worksheet sheet remote}.

Local Abbreviation W := (World sheet remote).

Lemma sync_no_target (d t dt st : pystr) (w : W) :
  no_target st w ->
  sync_single_scan d t dt st w
  = set_status_text (str "No Google Sheet tab available for " ++ st) w.
Proof.
  intros [Hn|Hn]; unfold sync_single_scan, mbind, M_bind, get_session;
    rewrite Hn; reflexivity.
Qed.

Lemma sync_failed (d t dt st : pystr) (w w1 : W) (sh : sheet) (e : Exn) :
  sheets (session w) !! st = Some (Some sh) ->
  sync_body sh d t dt st w = (Raised e, w1) ->
  sync_single_scan d t dt st w
  = (set_status_text (str "Google Sheets sync failed: " ++ exn_str e);;
     print_traceback e) w1.
Proof.
  intros Hs Hb. unfold sync_single_scan, mbind at 1, M_bind at 1, get_session.
  rewrite Hs. unfold try_except. rewrite Hb. reflexivity.
Qed.

Lemma next_row_max (values : list pystr) :
  next_row values = Nat.max 2 (length values + 1).
Proof. destruct values; simpl; lia. Qed.

(** The calls of a sync whose reads go through. *)
Lemma sync_effects (d t dt st : pystr) (w : W) (sh : sheet)
    (data : list (list pystr)) (values : list pystr) (r1 r2 r3 : remote) :
  sheets (session w) !! st = Some (Some sh) ->
  get_all_values sh (remote_state w) = (Returned data, r1) ->
  match data with
  | [] => append_row sh sheet_header r1
  | _ :: _ => (Returned tt, r1)
  end = (Returned tt, r2) ->
  col_values sh 1 r2 = (Returned values, r3) ->
  let row := [d; t; dt; st; strftime_full (clock w (ticks w))] in
  let range_name := range_name_of (next_row values) in
  effects (snd (sync_single_scan d t dt st w))
  = effects w
    ++ [GetAllValues sh]
    ++ match data with [] => [AppendRow sh sheet_header] | _ :: _ => [] end
    ++ [ColValues sh 1; Update sh range_name [row]]
    ++ match fst (update sh range_name [row] r3) with
       | Raised e => [PrintTraceback e]
       | Returned _ => []
       end.
Proof.
  intros Hs Hg Ha Hc. cbv zeta.
  unfold sync_single_scan, mbind at 1, M_bind at 1, get_session.
  rewrite Hs. unfold try_except, sync_body.
  unfold mbind, M_bind, ws_get_all_values, ws_append_row, ws_col_values,
    ws_update, call_remote, now, emit, set_status_text, with_session,
    print_traceback, mret, M_ret.
  cbn [session files disk_faults remote_state clock ticks effects fst snd].
  rewrite Hg.
  cbn [session files disk_faults remote_state clock ticks effects fst snd].
  destruct data as [|row0 data];
    cbn [session files disk_faults remote_state clock ticks effects fst snd].
  - rewrite Ha.
    cbn [session files disk_faults remote_state clock ticks effects fst snd].
    rewrite Hc.
    cbn [session files disk_faults remote_state clock ticks effects fst snd].
    destruct (update sh _ _ r3) as [[[]|e] r4];
      cbn [session files disk_faults remote_state clock ticks effects fst snd emit];
      rewrite <- ?app_assoc; reflexivity.
  - injection Ha as <-.
    rewrite Hc.
    cbn [session files disk_faults remote_state clock ticks effects fst snd].
    destruct (update sh _ _ r3) as [[[]|e] r4];
      cbn [session files disk_faults remote_state clock ticks effects fst snd emit];
      rewrite <- ?app_assoc; reflexivity.
Qed.

End Sync.

Section RemoteClaims.

#[local] Arguments str : simpl never.

Context {sheet remote : Type} `{WS : Worksheet sheet remote}.

Local Abbreviation W := (World sheet remote).

(** C4, as the code has it.  When the station has a worksheet and the
    reads go through, the sync makes one update: range A<n>:E<n> with the
    one row (driver id, scan time, scan date, station, upload time), where
    n is the number of values the read of the first column returned, blank
    cells between filled ones included, plus one, and 2 when it returned
    none. *)
Theorem next_row_written (d t dt st : pystr) (w : W) (sh : sheet)
    (data : list (list pystr)) (values : list pystr) (r1 r2 r3 : remote) :
  sheets (session w) !! st = Some (Some sh) ->
  get_all_values sh (remote_state w) = (Returned data, r1) ->
  match data with
  | [] => append_row sh sheet_header r1
  | _ :: _ => (Returned tt, r1)
  end = (Returned tt, r2) ->
  col_values sh 1 r2 = (Returned values, r3) ->
  let n := next_row values in
  let row := [d; t; dt; st; strftime_full (clock w (ticks w))] in
  let range_name := str "A" ++ fmt_int n ++ str ":E" ++ fmt_int n in
  n = Nat.max 2 (length values + 1)
  /\ (values = [] -> n = 2)
  /\ update_calls
       (drop (length (effects w)) (effects (snd (sync_single_scan d t dt st w))))
     = [(sh, range_name, [row])].
Proof.
  intros Hs Hg Ha Hc. cbv zeta.
  split; [apply next_row_max|]. split; [intros ->; reflexivity|].
  rewrite (sync_effects d t dt st w sh data values r1 r2 r3 Hs Hg Ha Hc).
  rewrite drop_app_length.
  fold (range_name_of (next_row values)).
  destruct data as [|row0 data];
    destruct (fst (update sh _ _ r3)) as [[]|e]; reflexivity.
Qed.

(** C5. The sync always returns: an exception of a worksheet call ends
    up in the status text, as "Google Sheets sync failed: " and its
    message.  The ledger, the count message, the colour and the files are
    as before the sync, and a scan whose backup returned returns too, with
    its entry in the ledger and the alert of its count. *)
Theorem sync_failure_contained (d st : pystr) (w : W) :
  (forall t dt,
     let w' := snd (sync_single_scan d t dt st w) in
     fst (sync_single_scan d t dt st w) = Returned tt
     /\ local_data (session w') = local_data (session w)
     /\ count_message (session w') = count_message (session w)
     /\ count_color (session w') = count_color (session w)
     /\ files w' = files w
     /\ (forall sh e,
           sheets (session w) !! st = Some (Some sh) ->
           fst (sync_body sh d t dt st w) = Raised e ->
           status_text (session w')
           = str "Google Sheets sync failed: " ++ exn_str e))
  /\ (forallb isspace d = false ->
      fst (backup d st w) = Returned tt ->
      let w' := snd (scan_id d st w) in
      fst (scan_id d st w) = Returned tt
      /\ local_data (session w') = local_data (session w) ++ [scan_event d st w]
      /\ count_message (session w')
         = (if 5 <? counted d st w then break_message d (counted d st w) st
            else normal_message d (counted d st w) st)
      /\ count_color (session w')
         = (if 5 <? counted d st w then str "yellow" else str "lightgreen")).
Proof.
  split.
  - intros t dt. cbv zeta.
    split; [rewrite sync_returns; reflexivity|].
    split; [apply (sync_ledger d t dt st w)|].
    split; [apply (sync_count_message d t dt st w)|].
    split; [apply (sync_count_color d t dt st w)|].
    split; [apply (sync_files d t dt st w)|].
    intros sh e Hs Hb.
    destruct (sync_body sh d t dt st w) as [o w1] eqn:Hbody. simpl in Hb. subst o.
    rewrite (sync_failed d t dt st w w1 sh e Hs Hbody). reflexivity.
  - intros Hd Hb. apply valid_iff in Hd. cbv zeta.
    assert (Hret : fst (scan_id d st w) = Returned tt).
    { destruct (backup d st w) as [[u|e] w1] eqn:Hbk; [|discriminate].
      rewrite (scan_id_returned d st w w1 u Hd Hbk), sync_returns. reflexivity. }
    split; [exact Hret|].
    split; [apply scan_id_ledger, Hd|].
    apply scan_id_alert; assumption.
Qed.

(** C6. When the station has no worksheet, or an unusable one, the sync
    returns after setting the status text to "No Google Sheet tab
    available for " and the station; it makes no call and changes nothing
    else.  A scan whose backup returned then returns as well, with its
    tuple last in the ledger and its row last in the CSV file of the
    station. *)
Theorem no_target_skipped (d st : pystr) (w : W) :
  no_target st w ->
  (forall t dt,
     let w' := snd (sync_single_scan d t dt st w) in
     fst (sync_single_scan d t dt st w) = Returned tt
     /\ status_text (session w') = str "No Google Sheet tab available for " ++ st
     /\ effects w' = effects w
     /\ remote_state w' = remote_state w
     /\ files w' = files w
     /\ local_data (session w') = local_data (session w))
  /\ (forallb isspace d = false ->
      fst (backup d st w) = Returned tt ->
      let w' := snd (scan_id d st w) in
      let ev := scan_event d st w in
      fst (scan_id d st w) = Returned tt
      /\ status_text (session w') = str "No Google Sheet tab available for " ++ st
      /\ local_data (session w') = local_data (session w) ++ [ev]
      /\ files w' !! csv_name st
         = Some (default [csv_header] (files w !! csv_name st)
                   ++ [data_row d (ev_scan_time ev) (ev_scan_date ev) st
                         (clock w (S (S (ticks w))))])
      /\ remote_state w' = remote_state w).
Proof.
  intros Hn. split.
  - intros t dt. cbv zeta. rewrite (sync_no_target d t dt st w Hn).
    repeat split; reflexivity.
  - intros Hd Hb. apply valid_iff in Hd. cbv zeta.
    destruct (backup d st w) as [[[]|e] w1] eqn:Hbk; [|discriminate].
    pose proof (save_to_csv_session d (ev_scan_time (scan_event d st w))
                  (ev_scan_date (scan_event d st w)) st (logged d st w)) as Hss.
    pose proof (save_to_csv_remote d (ev_scan_time (scan_event d st w))
                  (ev_scan_date (scan_event d st w)) st (logged d st w)) as Hsr.
    pose proof (save_to_csv_returned d _ _ st (logged d st w) w1 tt Hbk) as Hsf.
    fold (backup d st w) in Hss, Hsr. rewrite Hbk in Hss, Hsr.
    cbn [fst snd] in Hss, Hsr.
    rewrite (scan_id_returned d st w w1 tt Hd Hbk).
    set (w2 := snd (update_alert d (counted d st w) st w1)).
    assert (Hw2 : sheets (session w2) = sheets (session w)
                  /\ local_data (session w2)
                     = local_data (session w) ++ [scan_event d st w]
                  /\ files w2 = files w1 /\ remote_state w2 = remote_state w1).
    { unfold w2.
      rewrite (update_alert_sheets d st _ w1), (update_alert_ledger d st _ w1),
        (update_alert_files d st _ w1), (update_alert_remote d st _ w1), Hss.
      auto. }
    destruct Hw2 as (Hsheets & Hledger & Hfiles & Hrem).
    assert (Hn2 : no_target st w2) by (unfold no_target; rewrite Hsheets; exact Hn).
    rewrite (sync_no_target d _ _ st w2 Hn2).
    split; [reflexivity|]. split; [reflexivity|].
    split; [exact Hledger|].
    split.
    { change (files (snd (set_status_text _ w2))) with (files w2).
      rewrite Hfiles, Hsf, lookup_insert_eq. reflexivity. }
    change (remote_state (snd (set_status_text _ w2))) with (remote_state w2).
    rewrite Hrem, Hsr. reflexivity.
Qed.

End RemoteClaims.

Lemma next_row_written_witness :
  let w := Scripted.gapped in
  let values := [str "Driver ID"; []; str "D7"] in
  sheets (session w) !! Scripted.DUD2 = Some (Some Scripted.DUD2)
  /\ fst (col_values Scripted.DUD2 1 (remote_state w)) = Returned values
  /\ update_calls
       (drop (length (effects w))
          (effects (snd (sync_single_scan (str "D9") (str "12:00:00")
                           (str "2024-03-09") Scripted.DUD2 w))))
     = [(Scripted.DUD2, str "A4:E4",
         [[str "D9"; str "12:00:00"; str "2024-03-09"; Scripted.DUD2;
           str "2024-03-09 12:00:00"]])].
Proof.
  cbv zeta.
  assert (Hs : sheets (session Scripted.gapped) !! Scripted.DUD2 = Some (Some Scripted.DUD2))
    by (vm_compute; reflexivity).
  split; [exact Hs|]. split; [vm_compute; reflexivity|].
  refine (proj2 (proj2
    (next_row_written (str "D9") (str "12:00:00") (str "2024-03-09") Scripted.DUD2
       Scripted.gapped Scripted.DUD2
       [sheet_header; []; [str "D7"]] [str "Driver ID"; []; str "D7"]
       (snd (get_all_values Scripted.DUD2 (remote_state Scripted.gapped)))
       (snd (get_all_values Scripted.DUD2 (remote_state Scripted.gapped)))
       (snd (col_values Scripted.DUD2 1
               (snd (get_all_values Scripted.DUD2 (remote_state Scripted.gapped)))))
       Hs _ _ _))); vm_compute; reflexivity.
Defined.

(** C4, as the spec words it, fails on a first column with a blank cell
    between two filled ones: that column has two non-empty values, so the
    spec's row is 3, and the sync writes row 4. *)
Lemma next_row_counterexample :
  let values := [str "Driver ID"; []; str "D7"] in
  fst (col_values Scripted.DUD2 1 (remote_state Scripted.gapped)) = Returned values
  /\ spec_next_row values = 3
  /\ update_calls
       (effects (snd (sync_single_scan (str "D9") (str "12:00:00")
                        (str "2024-03-09") Scripted.DUD2 Scripted.gapped)))
     = [(Scripted.DUD2, range_name_of 4,
         [[str "D9"; str "12:00:00"; str "2024-03-09"; Scripted.DUD2;
           str "2024-03-09 12:00:00"]])]
  /\ range_name_of 4 <> range_name_of (spec_next_row values).
Proof.
  cbv zeta. split; [vm_compute; reflexivity|]. split; [vm_compute; reflexivity|].
  split; [vm_compute; reflexivity|]. vm_compute. discriminate.
Qed.

Lemma sync_failure_contained_witness :
  let w := Scripted.broken in
  let d := str "D123" in
  let quota := Exception (str "APIError: quota exceeded") in
  sheets (session w) !! Scripted.DUD2 = Some (Some Scripted.DUD2)
  /\ fst (sync_body Scripted.DUD2 d (str "12:00:00") (str "2024-03-09") Scripted.DUD2 w)
     = Raised quota
  /\ status_text (session (snd (sync_single_scan d (str "12:00:00") (str "2024-03-09")
                                  Scripted.DUD2 w)))
     = str "Google Sheets sync failed: APIError: quota exceeded"
  /\ forallb isspace d = false
  /\ fst (backup d Scripted.DUD2 w) = Returned tt
  /\ fst (scan_id d Scripted.DUD2 w) = Returned tt.
Proof.
  cbv zeta.
  assert (Hs : sheets (session Scripted.broken) !! Scripted.DUD2 = Some (Some Scripted.DUD2))
    by (vm_compute; reflexivity).
  assert (Hb : fst (sync_body Scripted.DUD2 (str "D123") (str "12:00:00")
                      (str "2024-03-09") Scripted.DUD2 Scripted.broken)
               = Raised (Exception (str "APIError: quota exceeded")))
    by (vm_compute; reflexivity).
  assert (Hk : fst (backup (str "D123") Scripted.DUD2 Scripted.broken) = Returned tt)
    by (vm_compute; reflexivity).
  destruct (sync_failure_contained (str "D123") Scripted.DUD2 Scripted.broken)
    as [Hsync Hscan].
  destruct (Hsync (str "12:00:00") (str "2024-03-09")) as (_ & _ & _ & _ & _ & Hmsg).
  destruct (Hscan eq_refl Hk) as (Hret & _).
  split; [exact Hs|]. split; [exact Hb|].
  split; [exact (Hmsg Scripted.DUD2 _ Hs Hb)|].
  split; [reflexivity|]. split; [exact Hk|exact Hret].
Defined.

Lemma no_target_skipped_witness :
  let w := Scripted.offline in
  let d := str "D123" in
  no_target Scripted.DUD2 w
  /\ forallb isspace d = false
  /\ fst (backup d Scripted.DUD2 w) = Returned tt
  /\ fst (scan_id d Scripted.DUD2 w) = Returned tt
  /\ status_text (session (snd (scan_id d Scripted.DUD2 w)))
     = str "No Google Sheet tab available for DUD2"
  /\ length <$> (files (snd (scan_id d Scripted.DUD2 w)) !! str "DUD2_scans.csv")
     = Some 2.
Proof.
  cbv zeta.
  assert (Hn : no_target Scripted.DUD2 Scripted.offline) by (left; vm_compute; reflexivity).
  assert (Hk : fst (backup (str "D123") Scripted.DUD2 Scripted.offline) = Returned tt)
    by (vm_compute; reflexivity).
  destruct (no_target_skipped (str "D123") Scripted.DUD2 Scripted.offline Hn)
    as [_ Hscan].
  destruct (Hscan eq_refl Hk) as (Hret & Hst & _ & Hf & _).
  split; [exact Hn|]. split; [reflexivity|]. split; [exact Hk|].
  split; [exact Hret|]. split; [exact Hst|].
  change (str "DUD2_scans.csv") with (csv_name Scripted.DUD2).
  rewrite Hf. vm_compute. reflexivity.
Defined.

(** ** A scan whose backup fails, a scan on a healthy disk *)

Section Failures.

#[local] Arguments str : simpl never.

Context {sheet remote : Type} `{WS : Worksheet sheet remote}.

Local Abbreviation W := (World sheet remote).

(** The backup makes no worksheet call. *)
Lemma save_to_csv_no_remote_call (d t dt st : pystr) (w : W) :
  remote_calls (drop (length (effects w)) (effects (snd (save_to_csv d t dt st w)))) = [].
Proof.
  assert (Hnil : drop (length (effects w)) (effects w) = [])
    by (apply drop_ge; lia).
  unfold save_to_csv, mbind, M_bind, isfile, open_append,
    writerow, now, disk_answer, set_disk, emit, mret, M_ret.
  cbn [session files disk_faults remote_state clock ticks effects fst snd negb].
  destruct (bool_decide _);
    destruct (disk_faults w) as [|[e|] [|[e'|] [|[e''|] rest]]];
    cbn [session files disk_faults remote_state clock ticks effects fst snd negb];
    rewrite <- ?app_assoc, ?drop_app_length, ?Hnil; reflexivity.
Qed.

(** A scan raises exactly when its backup does. *)
Lemma scan_id_raises_iff (d st : pystr) (w : W) (e : Exn) :
  truthy (strip d) = true ->
  fst (scan_id d st w) = Raised e <-> fst (backup d st w) = Raised e.
Proof.
  intros Hv. destruct (backup d st w) as [[u|e'] w1] eqn:Hb.
  - rewrite (scan_id_returned d st w w1 u Hv Hb), sync_returns. simpl.
    split; discriminate.
  - rewrite (scan_id_raised d st w w1 e' Hv Hb). reflexivity.
Qed.

Lemma scan_id_healthy (d st : pystr) (w : W) :
  truthy (strip d) = true ->
  disk_faults w = [] ->
  fst (scan_id d st w) = Returned tt
  /\ disk_faults (snd (scan_id d st w)) = []
  /\ files (snd (scan_id d st w))
     = <[csv_name st :=
           default [csv_header] (files w !! csv_name st)
             ++ [data_row d (ev_scan_time (scan_event d st w))
                   (ev_scan_date (scan_event d st w)) st
                   (clock w (S (S (ticks w))))]]> (files w).
Proof.
  intros Hv Hd.
  destruct (save_to_csv_healthy d (ev_scan_time (scan_event d st w))
              (ev_scan_date (scan_event d st w)) st (logged d st w) Hd)
    as [Hret Hfaults].
  fold (backup d st w) in Hret, Hfaults.
  destruct (backup d st w) as [[[]|e] w1] eqn:Hb; [|discriminate].
  cbn [fst snd] in Hfaults.
  pose proof (save_to_csv_returned d _ _ st (logged d st w) w1 tt Hb) as Hf.
  rewrite (scan_id_returned d st w w1 tt Hv Hb), sync_returns.
  cbn [fst snd].
  rewrite (sync_disk_faults _ _ _ _ _), (sync_files _ _ _ _ _).
  assert (Hdf : preserves (disk_faults : W -> _) (update_alert d (counted d st w) st))
    by (unfold update_alert; frame).
  rewrite Hdf, (update_alert_files d st _ w1), Hfaults, Hf.
  split; [reflexivity|]. split; reflexivity.
Qed.



End Failures.

Section Ledger.

#[local] Arguments str : simpl never.

Context {sheet remote : Type} `{WS : Worksheet sheet remote}.

Local Abbreviation W := (World sheet remote).

Lemma scan_id_keeps (P : Scan -> Prop) (d st : pystr) (w : W) :
  (truthy (strip d) = true -> P (scan_event d st w)) ->
  Forall P (local_data (session w)) ->
  Forall P (local_data (session (snd (scan_id d st w)))).
Proof.
  intros Hnew Hold. destruct (truthy (strip d)) eqn:Hv.
  - rewrite (scan_id_ledger d st w Hv). apply Forall_app. split; [exact Hold|].
    constructor; [apply Hnew; reflexivity|constructor].
  - rewrite (scan_id_blank d st w Hv). exact Hold.
Qed.



End Ledger.

Section LocalClaims.

#[local] Arguments str : simpl never.

Context {sheet remote : Type} `{WS : Worksheet sheet remote}.

Local Abbreviation W := (World sheet remote).



(** C8. When the backup of a valid scan raises, the exception reaches
    the caller of the scan and the tuple of the scan stays in the ledger:
    nothing takes it back.  The session goes on: the next valid scan finds
    that tuple in the ledger, adds its own after it, and returns when the
    disk answers again. *)
Theorem backup_failure_keeps_ledger (d st : pystr) (w : W) (e : Exn) :
  forallb isspace d = false ->
  fst (backup d st w) = Raised e ->
  let w' := snd (scan_id d st w) in
  fst (scan_id d st w) = Raised e
  /\ local_data (session w') = local_data (session w) ++ [scan_event d st w]
  /\ (forall d2 st2 : pystr,
        forallb isspace d2 = false ->
        local_data (session (snd (scan_id d2 st2 w')))
        = local_data (session w) ++ [scan_event d st w; scan_event d2 st2 w']
        /\ (disk_faults w' = [] -> fst (scan_id d2 st2 w') = Returned tt)).
Proof.
  intros Hd Hr. apply valid_iff in Hd. cbv zeta.
  split; [apply scan_id_raises_iff; assumption|].
  split; [apply scan_id_ledger, Hd|].
  intros d2 st2 Hd2. apply valid_iff in Hd2.
  split.
  - rewrite (scan_id_ledger d2 st2 _ Hd2), (scan_id_ledger d st w Hd).
    rewrite <- app_assoc. reflexivity.
  - intros Hdisk. apply scan_id_healthy; assumption.
Qed.

(** C9, as the code has it.  Every tuple in the ledger of a session has a
    driver id that is not empty and not all whitespace: its stripped form
    is not empty.  The id is kept as it was submitted: a scan with an id
    that is not blank adds that very id, untrimmed, after the ids that the
    ledger holds. *)
Theorem ledger_ids_not_blank (w : W) :
  reachable w ->
  Forall (fun ev => ev_driver_id ev <> []
                    /\ strip (ev_driver_id ev) <> []
                    /\ forallb isspace (ev_driver_id ev) = false)
    (local_data (session w))
  /\ (forall d st : pystr,
        forallb isspace d = false ->
        ev_driver_id <$> local_data (session (snd (scan_id d st w)))
        = (ev_driver_id <$> local_data (session w)) ++ [d]).
Proof.
  intros Hreach. split.
  - induction Hreach
      as [w Hempty|button d st w Hreach IH|d st w Hreach IH|w w' Hreach IH Hs].
    + rewrite Hempty. constructor.
    + unfold submit_form. destruct (button && truthy d); [|exact IH].
      apply scan_id_keeps; [|exact IH].
      intros Hv. simpl. split; [intros ->; discriminate|].
      split; [intros Hnil; rewrite Hnil in Hv; discriminate|apply valid_iff, Hv].
    + apply scan_id_keeps; [|exact IH].
      intros Hv. simpl. split; [intros ->; discriminate|].
      split; [intros Hnil; rewrite Hnil in Hv; discriminate|apply valid_iff, Hv].
    + rewrite Hs. exact IH.
  - intros d st Hd. apply valid_iff in Hd.
    rewrite (scan_id_ledger d st w Hd), fmap_app. reflexivity.
Qed.

(** C10. When the backup of a valid scan raises, the scan raises the same
    exception.  Its tuple is in the ledger and the status text says
    "Scanned locally"; the count message, the colour and what [main]
    displays of them are those of before the scan; no worksheet call was
    made and the service is as it was. *)
Theorem backup_failure_skips_count_and_sync (d st : pystr) (w : W) (e : Exn) :
  forallb isspace d = false ->
  fst (backup d st w) = Raised e ->
  let w' := snd (scan_id d st w) in
  fst (scan_id d st w) = Raised e
  /\ local_data (session w') = local_data (session w) ++ [scan_event d st w]
  /\ status_text (session w') = str "Scanned locally: " ++ d ++ str " @ " ++ st
  /\ count_message (session w') = count_message (session w)
  /\ count_color (session w') = count_color (session w)
  /\ count_display (session w') = count_display (session w)
  /\ remote_calls (drop (length (effects w)) (effects w')) = []
  /\ remote_state w' = remote_state w.
Proof.
  intros Hd Hb. apply valid_iff in Hd. cbv zeta.
  pose proof (save_to_csv_session d (ev_scan_time (scan_event d st w))
                (ev_scan_date (scan_event d st w)) st (logged d st w)) as Hss.
  pose proof (save_to_csv_remote d (ev_scan_time (scan_event d st w))
                (ev_scan_date (scan_event d st w)) st (logged d st w)) as Hsr.
  pose proof (save_to_csv_no_remote_call d (ev_scan_time (scan_event d st w))
                (ev_scan_date (scan_event d st w)) st (logged d st w)) as Hsc.
  fold (backup d st w) in Hss, Hsr, Hsc.
  destruct (backup d st w) as [[u|e'] w1] eqn:Hbk; [discriminate|].
  cbn [fst snd] in Hb, Hss, Hsr, Hsc. injection Hb as ->.
  rewrite (scan_id_raised d st w w1 e Hd Hbk). cbn [fst snd].
  unfold count_display. rewrite Hss.
  repeat split; try reflexivity; assumption.
Qed.

End LocalClaims.



Lemma backup_failure_keeps_ledger_witness :
  let d := str "D123" in
  let e := Exception (str "No space left on device") in
  forallb isspace d = false
  /\ fst (backup d Scripted.DUD2 Scripted.disk_full) = Raised e
  /\ fst (scan_id d Scripted.DUD2 Scripted.disk_full) = Raised e
  /\ length (local_data (session (snd (scan_id d Scripted.DUD2 Scripted.disk_full)))) = 1
  /\ fst (scan_id d Scripted.DUD2 (snd (scan_id d Scripted.DUD2 Scripted.disk_full)))
     = Returned tt.
Proof.
  cbv zeta.
  assert (Hb : fst (backup (str "D123") Scripted.DUD2 Scripted.disk_full)
               = Raised (Exception (str "No space left on device")))
    by (vm_compute; reflexivity).
  destruct (backup_failure_keeps_ledger (str "D123") Scripted.DUD2 Scripted.disk_full
              _ eq_refl Hb) as (Hr & Hl & Hnext).
  split; [reflexivity|]. split; [exact Hb|]. split; [exact Hr|].
  split; [rewrite Hl; reflexivity|].
  apply (Hnext (str "D123") Scripted.DUD2 eq_refl). vm_compute. reflexivity.
Defined.

Lemma ledger_ids_not_blank_witness :
  let w := snd (submit_form true (str " D1 ") Scripted.DUD2 Scripted.fresh) in
  reachable w
  /\ Forall (fun ev => ev_driver_id ev <> []
                       /\ strip (ev_driver_id ev) <> []
                       /\ forallb isspace (ev_driver_id ev) = false)
       (local_data (session w))
  /\ ev_driver_id <$> local_data (session (snd (scan_id (str "D2 ") Scripted.DUD2 w)))
     = (ev_driver_id <$> local_data (session w)) ++ [str "D2 "].
Proof.
  cbv zeta.
  assert (Hreach : reachable (snd (submit_form true (str " D1 ") Scripted.DUD2
                                     Scripted.fresh)))
    by (apply reach_scan, reach_start; reflexivity).
  destruct (ledger_ids_not_blank _ Hreach) as [Hall Hkept].
  split; [exact Hreach|]. split; [exact Hall|].
  exact (Hkept (str "D2 ") Scripted.DUD2 eq_refl).
Defined.

(** C9, as the spec words it, fails on an id with a space around it: the
    form passes it on, the scan accepts it, and the ledger holds it with
    its spaces. *)
Lemma ledger_id_not_trimmed_counterexample :
  let w := snd (submit_form true (str " D1 ") Scripted.DUD2 Scripted.fresh) in
  let ev := {| ev_driver_id := str " D1 "; ev_scan_time := str "12:00:00";
               ev_scan_date := str "2024-03-09"; ev_station := Scripted.DUD2 |} in
  local_data (session w) = [ev]
  /\ strip (ev_driver_id ev) = str "D1"
  /\ ev_driver_id ev <> strip (ev_driver_id ev).
Proof.
  cbv zeta. split; [vm_compute; reflexivity|]. split; [vm_compute; reflexivity|].
  vm_compute. discriminate.
Qed.

Lemma backup_failure_skips_count_and_sync_witness :
  let d := str "D123" in
  let e := Exception (str "No space left on device") in
  forallb isspace d = false
  /\ fst (backup d Scripted.DUD2 Scripted.disk_full) = Raised e
  /\ fst (scan_id d Scripted.DUD2 Scripted.disk_full) = Raised e
  /\ count_message (session (snd (scan_id d Scripted.DUD2 Scripted.disk_full))) = [].
Proof.
  cbv zeta.
  assert (Hb : fst (backup (str "D123") Scripted.DUD2 Scripted.disk_full)
               = Raised (Exception (str "No space left on device")))
    by (vm_compute; reflexivity).
  destruct (backup_failure_skips_count_and_sync (str "D123") Scripted.DUD2
              Scripted.disk_full _ eq_refl Hb) as (Hr & _ & _ & Hm & _).
  split; [reflexivity|]. split; [exact Hb|]. split; [exact Hr|].
  rewrite Hm. reflexivity.
Defined.

(** * Further properties of the scan *)

Section ScanFacts.

#[local] Arguments str : simpl never.

Context {sheet remote : Type} `{WS : Worksheet sheet remote}.

Local Abbreviation W := (World sheet remote).

(** X1. Whatever the backups and the syncs do, a run leaves the ledger it
    found in place and adds, in order, one tuple for each request whose
    driver id is not blank, with the driver id and the station of the
    request. *)
Theorem ledger_records_accepted_requests (reqs : list (pystr * pystr)) (w : W) :
  exists new,
    local_data (session (run_scans reqs w)) = local_data (session w) ++ new
    /\ request_of <$> new = accepted reqs.
Proof.
  revert w. induction reqs as [|[d st] reqs IH]; intros w.
  - exists []. rewrite app_nil_r. split; reflexivity.
  - cbn [run_scans]. destruct (IH (snd (scan_id d st w))) as (new & Hl & Hreq).
    unfold accepted. destruct (truthy (strip d)) eqn:Hv.
    + exists (scan_event d st w :: new). split.
      * rewrite Hl, (scan_id_ledger d st w Hv), <- app_assoc. reflexivity.
      * rewrite filter_cons_True by (apply valid_iff, Hv).
        rewrite fmap_cons. f_equal. exact Hreq.
    + exists new. split.
      * rewrite Hl, (scan_id_blank d st w Hv). reflexivity.
      * rewrite filter_cons_False; [exact Hreq|].
        intros Hd. apply valid_iff in Hd. simpl in Hd. congruence.
Qed.

(** X2. The count of a driver at a station on a day moves only with the
    scans of that very driver id at that very station: a scan with another
    id, be it the same id with a space or in another case, or at another
    station, leaves it as it is. *)
Theorem count_unmoved_by_other_scans (d dt st d' st' : pystr) (w : W) :
  (d', st') <> (d, st) ->
  scan_count d dt st (local_data (session (snd (scan_id d' st' w))))
  = scan_count d dt st (local_data (session w)).
Proof.
  intros Hne. destruct (truthy (strip d')) eqn:Hv.
  - rewrite (scan_id_ledger d' st' w Hv), scan_count_app.
    unfold scan_count at 2, today_scans.
    rewrite filter_cons_False; [simpl; lia|].
    intros (H1 & _ & H3). simpl in H1, H3. congruence.
  - rewrite (scan_id_blank d' st' w Hv). reflexivity.
Qed.

End ScanFacts.

Lemma count_unmoved_by_other_scans_witness :
  (str "D123 ", Scripted.DUD2) <> (str "D123", Scripted.DUD2)
  /\ scan_count (str "D123") (str "2024-03-09") Scripted.DUD2
       (local_data (session (snd (scan_id (str "D123 ") Scripted.DUD2
          (run_scans (replicate 5 (str "D123", Scripted.DUD2)) Scripted.fresh))))) = 5.
Proof.
  assert (Hne : (str "D123 ", Scripted.DUD2) <> (str "D123", Scripted.DUD2))
    by (vm_compute; discriminate).
  split; [exact Hne|].
  rewrite (count_unmoved_by_other_scans (str "D123") (str "2024-03-09") Scripted.DUD2
             (str "D123 ") Scripted.DUD2 _ Hne).
  vm_compute. reflexivity.
Defined.

Section ScanEffects.

#[local] Arguments str : simpl never.

Context {sheet remote : Type} `{WS : Worksheet sheet remote}.

Local Abbreviation W := (World sheet remote).

Lemma save_to_csv_other_files (d t dt st fn : pystr) (w : W) :
  fn <> csv_name st ->
  files (snd (save_to_csv d t dt st w)) !! fn = files w !! fn.
Proof.
  intros Hne.
  unfold save_to_csv, mbind, M_bind, isfile, open_append,
    writerow, now, disk_answer, set_disk, emit, mret, M_ret.
  cbn [session files disk_faults remote_state clock ticks effects fst snd negb].
  fold (csv_name st).
  destruct (files w !! csv_name st) as [c0|] eqn:Hf.
  - rewrite bool_decide_eq_true_2 by eauto.
    destruct (disk_faults w) as [|[e|] [|[e'|] rest]];
      cbn [session files disk_faults remote_state clock ticks effects fst snd negb];
      rewrite ?Hf;
      cbn [session files disk_faults remote_state clock ticks effects fst snd default];
      rewrite ?lookup_insert_ne by congruence; reflexivity.
  - rewrite bool_decide_eq_false_2 by (intros [? ?]; discriminate).
    destruct (disk_faults w) as [|[e|] [|[e'|] [|[e''|] rest]]];
      cbn [session files disk_faults remote_state clock ticks effects fst snd negb];
      rewrite ?Hf;
      cbn [session files disk_faults remote_state clock ticks effects fst snd default];
      rewrite ?lookup_insert_ne by congruence; reflexivity.
Qed.

(** X3. A scan at a station changes no file but the CSV file of that
    station, whether its backup goes through or fails half-way. *)
Theorem scan_touches_only_its_file (d st fn : pystr) (w : W) :
  fn <> csv_name st ->
  files (snd (scan_id d st w)) !! fn = files w !! fn.
Proof.
  intros Hne. destruct (truthy (strip d)) eqn:Hv.
  - pose proof (save_to_csv_other_files d (ev_scan_time (scan_event d st w))
                  (ev_scan_date (scan_event d st w)) st fn (logged d st w) Hne) as Ho.
    fold (backup d st w) in Ho.
    destruct (backup d st w) as [[u|e] w1] eqn:Hb; cbn [snd] in Ho.
    + rewrite (scan_id_returned d st w w1 u Hv Hb).
      rewrite (sync_files _ _ _ _ _), (update_alert_files d st _ w1). exact Ho.
    + rewrite (scan_id_raised d st w w1 e Hv Hb). exact Ho.
  - rewrite (scan_id_blank d st w Hv). reflexivity.
Qed.

(** *** The effects of the two halves of a scan *)

Lemma emits_ret {X} (P : Effect sheet -> Prop) (x : X) :
  emits P (mret x : @M sheet remote X).
Proof. intros w. exists []. rewrite app_nil_r. split; [reflexivity|constructor]. Qed.

Lemma emits_bind {X Y} (P : Effect sheet -> Prop) (m : @M sheet remote X)
    (k : X -> @M sheet remote Y) :
  emits P m -> (forall x, emits P (k x)) -> emits P (m ≫= k).
Proof.
  intros Hm Hk w. unfold mbind, M_bind.
  destruct (Hm w) as (l1 & H1 & HP1).
  destruct (m w) as [[x|e] w1]; cbn [snd] in *.
  - destruct (Hk x w1) as (l2 & H2 & HP2).
    exists (l1 ++ l2). rewrite H2, H1, <- app_assoc.
    split; [reflexivity|apply Forall_app; auto].
  - exists l1. auto.
Qed.

Lemma emits_try {X} (P : Effect sheet -> Prop) (m : @M sheet remote X)
    (h : Exn -> @M sheet remote X) :
  emits P m -> (forall e, emits P (h e)) -> emits P (try_except m h).
Proof.
  intros Hm Hh w. unfold try_except.
  destruct (Hm w) as (l1 & H1 & HP1).
  destruct (m w) as [[x|e] w1]; cbn [snd] in *.
  - exists l1. auto.
  - destruct (Hh e w1) as (l2 & H2 & HP2).
    exists (l1 ++ l2). rewrite H2, H1, <- app_assoc.
    split; [reflexivity|apply Forall_app; auto].
Qed.

Lemma emits_silent {X} (P : Effect sheet -> Prop) (m : @M sheet remote X) :
  preserves effects m -> emits P m.
Proof.
  intros Hm w. exists []. rewrite app_nil_r, Hm. split; [reflexivity|constructor].
Qed.

Lemma emits_call {X} (P : Effect sheet -> Prop) (e : Effect sheet)
    (f : remote -> Outcome X * remote) :
  P e -> emits P (call_remote e f).
Proof.
  intros HP w. exists [e]. unfold call_remote.
  destruct (f (remote_state w)) as [r rs]. split; [reflexivity|].
  constructor; [exact HP|constructor].
Qed.

Lemma sync_emits_no_file_effect (d t dt st : pystr) :
  emits (fun e => is_file_effect e = false)
    (sync_single_scan (sheet:=sheet) (remote:=remote) d t dt st).
Proof.
  unfold sync_single_scan, sync_body.
  repeat first
    [ apply emits_bind; [|intros ?]
    | apply emits_try; [|intros ?]
    | apply emits_ret
    | apply emits_call; reflexivity
    | match goal with
      | |- emits _ (match ?x with _ => _ end) => destruct x
      end
    | solve [apply emits_silent; frame_prim] ].
  intros w0. exists [PrintTraceback e]. split; [reflexivity|].
  constructor; [reflexivity|constructor].
Qed.

Lemma save_to_csv_emits_file_effects (d t dt st : pystr) :
  emits (fun e => is_file_effect e = true)
    (save_to_csv (sheet:=sheet) (remote:=remote) d t dt st).
Proof.
  intros w.
  unfold save_to_csv, mbind, M_bind, isfile, open_append,
    writerow, now, disk_answer, set_disk, emit, mret, M_ret.
  cbn [session files disk_faults remote_state clock ticks effects fst snd negb].
  destruct (bool_decide _);
    destruct (disk_faults w) as [|[e|] [|[e'|] [|[e''|] rest]]];
    cbn [session files disk_faults remote_state clock ticks effects fst snd negb];
    rewrite <- ?app_assoc;
    first [ (exists []; rewrite app_nil_r; split; [reflexivity|constructor])
          | (eexists; split; [reflexivity|repeat constructor]) ].
Qed.

(** X6. In a scan every file operation comes before every other effect:
    the backup is over, written or failed, before the first worksheet call
    is made; and when the backup fails nothing follows it. *)
Theorem backup_precedes_sync (d st : pystr) (w : W) :
  exists l1 l2,
    effects (snd (scan_id d st w)) = effects w ++ l1 ++ l2
    /\ Forall (fun e => is_file_effect e = true) l1
    /\ Forall (fun e => is_file_effect e = false) l2
    /\ (forall e, fst (scan_id d st w) = Raised e -> l2 = []).
Proof.
  destruct (truthy (strip d)) eqn:Hv.
  - destruct (save_to_csv_emits_file_effects d (ev_scan_time (scan_event d st w))
                (ev_scan_date (scan_event d st w)) st (logged d st w))
      as (l1 & H1 & HP1).
    fold (backup d st w) in H1.
    destruct (backup d st w) as [[u|e] w1] eqn:Hb; cbn [snd] in H1.
    + rewrite (scan_id_returned d st w w1 u Hv Hb).
      destruct (sync_emits_no_file_effect d (ev_scan_time (scan_event d st w))
                  (ev_scan_date (scan_event d st w)) st
                  (snd (update_alert d (counted d st w) st w1)))
        as (l2 & H2 & HP2).
      exists l1, l2. rewrite H2, (update_alert_effects d st _ w1), H1, <- app_assoc.
      split; [reflexivity|]. split; [exact HP1|]. split; [exact HP2|].
      intros e. rewrite sync_returns. discriminate.
    + rewrite (scan_id_raised d st w w1 e Hv Hb).
      exists l1, []. rewrite app_nil_r. cbn [fst snd].
      split; [exact H1|]. split; [exact HP1|]. split; [constructor|reflexivity].
  - rewrite (scan_id_blank d st w Hv).
    exists [], [StError (str "Please enter a Driver ID")].
    split; [reflexivity|]. split; [constructor|].
    split; [constructor; [reflexivity|constructor]|discriminate].
Qed.

End ScanEffects.

Lemma scan_touches_only_its_file_witness :
  str "DUD3_scans.csv" <> csv_name Scripted.DUD2
  /\ files (snd (scan_id (str "D123") Scripted.DUD2 Scripted.fresh)) !! str "DUD3_scans.csv"
     = None.
Proof.
  assert (Hne : str "DUD3_scans.csv" <> csv_name Scripted.DUD2)
    by (vm_compute; discriminate).
  split; [exact Hne|].
  rewrite (scan_touches_only_its_file (str "D123") Scripted.DUD2 _ Scripted.fresh Hne).
  reflexivity.
Defined.

Section SyncFacts.

#[local] Arguments str : simpl never.

Context {sheet remote : Type} `{WS : Worksheet sheet remote}.

Local Abbreviation W := (World sheet remote).

Ltac run_sync :=
  unfold sync_body, mbind, M_bind, ws_get_all_values, ws_append_row, ws_col_values,
    ws_update, call_remote, now, emit, set_status_text, with_session,
    print_traceback, mret, M_ret;
  cbn [session files disk_faults remote_state clock ticks effects fst snd].

Ltac sync_step :=
  cbn [session files disk_faults remote_state clock ticks effects fst snd
       status_text emit];
  match goal with
  | |- context [get_all_values ?a ?r] =>
      destruct (get_all_values a r) as [[?|?] ?]
  | |- context [append_row ?a ?h ?r] =>
      destruct (append_row a h r) as [[?|?] ?]
  | |- context [col_values ?a ?c ?r] =>
      destruct (col_values a c r) as [[?|?] ?]
  | |- context [update ?a ?n ?v ?r] =>
      destruct (update a n v r) as [[?|?] ?]
  | |- context [match ?x with [] => _ | _ :: _ => _ end] =>
      is_var x; destruct x
  end;
  cbn [session files disk_faults remote_state clock ticks effects fst snd
       status_text emit].

(** When the [try] of the sync comes to its end, the status says so. *)
Lemma sync_body_returned (sh : sheet) (d t dt st : pystr) (w w1 : W) (u : unit) :
  sync_body sh d t dt st w = (Returned u, w1) ->
  status_text (session w1)
  = str "Uploaded to " ++ st ++ str " Google Sheet tab: " ++ d.
Proof.
  run_sync. repeat sync_step; try discriminate;
    intros Heq; injection Heq as _ <-; reflexivity.
Qed.

(** The status text the sync leaves. *)
Lemma sync_status (d t dt st : pystr) (w : W) :
  match sheets (session w) !! st with
  | Some (Some sh) =>
      status_text (session (snd (sync_single_scan d t dt st w)))
      = str "Uploaded to " ++ st ++ str " Google Sheet tab: " ++ d
      \/ exists e,
           fst (sync_body sh d t dt st w) = Raised e
           /\ status_text (session (snd (sync_single_scan d t dt st w)))
              = str "Google Sheets sync failed: " ++ exn_str e
  | _ =>
      status_text (session (snd (sync_single_scan d t dt st w)))
      = str "No Google Sheet tab available for " ++ st
  end.
Proof.
  destruct (sheets (session w) !! st) as [[sh|]|] eqn:Hs.
  - destruct (sync_body sh d t dt st w) as [[u|e] w1] eqn:Hb.
    + left. unfold sync_single_scan, mbind at 1, M_bind at 1, get_session.
      rewrite Hs. unfold try_except. rewrite Hb. cbn [snd].
      apply (sync_body_returned sh d t dt st w w1 u Hb).
    + right. exists e. split; [reflexivity|].
      rewrite (sync_failed d t dt st w w1 sh e Hs Hb). reflexivity.
  - rewrite (sync_no_target d t dt st w) by (right; exact Hs). reflexivity.
  - rewrite (sync_no_target d t dt st w) by (left; exact Hs). reflexivity.
Qed.

(** The status text of a scan whose backup returned. *)
Lemma scan_status_cases (d st : pystr) (w w1 : W) (u : unit) :
  truthy (strip d) = true ->
  backup d st w = (Returned u, w1) ->
  match sheets (session w) !! st with
  | Some (Some sh) =>
      status_text (session (snd (scan_id d st w)))
      = str "Uploaded to " ++ st ++ str " Google Sheet tab: " ++ d
      \/ exists e, status_text (session (snd (scan_id d st w)))
                   = str "Google Sheets sync failed: " ++ exn_str e
  | _ => status_text (session (snd (scan_id d st w)))
         = str "No Google Sheet tab available for " ++ st
  end.
Proof.
  intros Hd Hb.
  pose proof (save_to_csv_session d (ev_scan_time (scan_event d st w))
                (ev_scan_date (scan_event d st w)) st (logged d st w)) as Hss.
  fold (backup d st w) in Hss. rewrite Hb in Hss. cbn [snd] in Hss.
  rewrite (scan_id_returned d st w w1 u Hd Hb).
  set (w2 := snd (update_alert d (counted d st w) st w1)).
  assert (Hsh : sheets (session w2) = sheets (session w)).
  { unfold w2. rewrite (update_alert_sheets d st _ w1), Hss. reflexivity. }
  pose proof (sync_status d (ev_scan_time (scan_event d st w))
                (ev_scan_date (scan_event d st w)) st w2) as Hst.
  rewrite Hsh in Hst.
  destruct (sheets (session w) !! st) as [[sh|]|]; [|exact Hst|exact Hst].
  destruct Hst as [Hup|(e & _ & Hfail)]; [left; exact Hup|right; eauto].
Qed.

(** X4. After a scan that returns, the status text is never left at
    "Scanned locally": it names the upload when the worksheet calls all
    went through, carries the message of the exception when one of them
    raised, and says that no tab is available when the station has no
    worksheet. *)
Theorem status_after_scan (d st : pystr) (w : W) :
  forallb isspace d = false ->
  fst (scan_id d st w) = Returned tt ->
  let status := status_text (session (snd (scan_id d st w))) in
  match sheets (session w) !! st with
  | Some (Some sh) =>
      status = str "Uploaded to " ++ st ++ str " Google Sheet tab: " ++ d
      \/ exists e, status = str "Google Sheets sync failed: " ++ exn_str e
  | _ => status = str "No Google Sheet tab available for " ++ st
  end.
Proof.
  intros Hd Hret. apply valid_iff in Hd. cbv zeta.
  destruct (backup d st w) as [[u|e] w1] eqn:Hb.
  - exact (scan_status_cases d st w w1 u Hd Hb).
  - rewrite (scan_id_raised d st w w1 e Hd Hb) in Hret. discriminate.
Qed.

(** X5. The sync appends the header row exactly when the read of the whole
    tab returned no row at all: a tab that holds rows, with or without a
    header among them, gets none. *)
Theorem header_only_for_empty_tab (d t dt st : pystr) (w : W) (sh : sheet)
    (data : list (list pystr)) (r1 : remote) :
  sheets (session w) !! st = Some (Some sh) ->
  get_all_values sh (remote_state w) = (Returned data, r1) ->
  AppendRow sh sheet_header
    ∈ drop (length (effects w)) (effects (snd (sync_single_scan d t dt st w)))
  <-> data = [].
Proof.
  intros Hs Hg.
  unfold sync_single_scan, mbind at 1, M_bind at 1, get_session.
  rewrite Hs. unfold try_except. run_sync. rewrite Hg.
  cbn [session files disk_faults remote_state clock ticks effects fst snd].
  destruct data as [|row0 data].
  - split; [reflexivity|intros _].
    repeat sync_step; rewrite <- ?app_assoc, drop_app_length; set_solver.
  - split; [|discriminate]. intros Hin. exfalso. revert Hin.
    repeat sync_step; rewrite <- ?app_assoc, drop_app_length; intros Hin;
      repeat (apply elem_of_cons in Hin as [Hin|Hin]; [discriminate|]);
      inversion Hin.
Qed.

End SyncFacts.

Lemma status_after_scan_witness :
  let status := status_text (session (snd (scan_id (str "D123") Scripted.DUD2
                                             Scripted.fresh))) in
  forallb isspace (str "D123") = false
  /\ fst (scan_id (str "D123") Scripted.DUD2 Scripted.fresh) = Returned tt
  /\ (status = str "Uploaded to " ++ Scripted.DUD2 ++ str " Google Sheet tab: "
                 ++ str "D123"
      \/ exists e, status = str "Google Sheets sync failed: " ++ exn_str e).
Proof.
  cbv zeta.
  assert (Hr : fst (scan_id (str "D123") Scripted.DUD2 Scripted.fresh) = Returned tt)
    by (vm_compute; reflexivity).
  split; [reflexivity|]. split; [exact Hr|].
  exact (status_after_scan (str "D123") Scripted.DUD2 Scripted.fresh eq_refl Hr).
Defined.

Lemma header_only_for_empty_tab_witness :
  let w := Scripted.fresh in
  sheets (session w) !! Scripted.DUD2 = Some (Some Scripted.DUD2)
  /\ fst (get_all_values Scripted.DUD2 (remote_state w)) = Returned []
  /\ AppendRow Scripted.DUD2 sheet_header
       ∈ drop (length (effects w))
           (effects (snd (sync_single_scan (str "D9") (str "12:00:00")
                            (str "2024-03-09") Scripted.DUD2 w))).
Proof.
  cbv zeta.
  assert (Hs : sheets (session Scripted.fresh) !! Scripted.DUD2 = Some (Some Scripted.DUD2))
    by (vm_compute; reflexivity).
  split; [exact Hs|]. split; [vm_compute; reflexivity|].
  apply (header_only_for_empty_tab (str "D9") (str "12:00:00") (str "2024-03-09")
           Scripted.DUD2 Scripted.fresh Scripted.DUD2 []
           (snd (get_all_values Scripted.DUD2 (remote_state Scripted.fresh))) Hs);
    [vm_compute; reflexivity|reflexivity].
Defined.

(** * Properties of start-up *)

Section BootFacts.

#[local] Arguments str : simpl never.

Context {creds client spreadsheet sheet remote : Type}.
Context `{WS : Worksheet sheet remote}.
Context `{GS : Startup.Gspread creds client spreadsheet sheet remote}.

Local Abbreviation A := (Startup.App sheet remote).

(** X7. Running [initialize_session_state] again changes nothing, and a
    key that already has a value keeps it: a rerun of the script never
    empties the ledger and never resets the status or the alert.  The
    sheets and their flag are not its business. *)
Theorem session_defaults_keep_values (s : Startup.RawSession sheet) :
  let s' := Startup.initialize_session_state s in
  Startup.initialize_session_state s' = s'
  /\ (forall l, Startup.k_local_data s = Some l -> Startup.k_local_data s' = Some l)
  /\ (forall t, Startup.k_status_text s = Some t -> Startup.k_status_text s' = Some t)
  /\ (forall m, Startup.k_count_message s = Some m -> Startup.k_count_message s' = Some m)
  /\ (forall c, Startup.k_count_color s = Some c -> Startup.k_count_color s' = Some c)
  /\ (forall l, Startup.k_stations s = Some l -> Startup.k_stations s' = Some l)
  /\ Startup.k_sheets s' = Startup.k_sheets s
  /\ Startup.k_sheets_initialized s' = Startup.k_sheets_initialized s.
Proof.
  cbv zeta. unfold Startup.initialize_session_state.
  cbn [Startup.k_local_data Startup.k_stations Startup.k_status_text
       Startup.k_count_message Startup.k_count_color Startup.k_sheets
       Startup.k_sheets_initialized default].
  split; [reflexivity|].
  repeat split; try reflexivity; intros x Hx; rewrite Hx; reflexivity.
Qed.

(** *** The connection leaves the session alone until its last step *)

Lemma open_tabs_raw (sp : spreadsheet) (tabs : list (pystr * pystr))
    (m : gmap pystr (option sheet)) (a : A) :
  Startup.raw (snd (Startup.open_tabs sp tabs m a)) = Startup.raw a.
Proof.
  revert m a. induction tabs as [|[station tab_name] tabs IH]; intros m a.
  - reflexivity.
  - cbn [Startup.open_tabs]. unfold mbind, Startup.B_bind, Startup.lookup_tab.
    destruct (Startup.worksheet sp tab_name (Startup.app_remote a)) as [[sh|e|e] rs].
    + rewrite IH. reflexivity.
    + unfold Startup.output, Startup.call. cbn [Startup.app_remote Startup.set_remote].
      destruct (Startup.add_worksheet sp tab_name 1000 10 rs) as [[sh|e'] rs'].
      * rewrite IH. reflexivity.
      * reflexivity.
    + unfold Startup.output. rewrite IH. reflexivity.
Qed.

Lemma open_tabs_dom (sp : spreadsheet) (tabs : list (pystr * pystr))
    (m m' : gmap pystr (option sheet)) (a : A) :
  fst (Startup.open_tabs sp tabs m a) = Returned m' ->
  dom m' = dom m ∪ list_to_set tabs.*1.
Proof.
  revert m a. induction tabs as [|[station tab_name] tabs IH]; intros m a.
  - cbn. intros [= <-]. set_solver.
  - cbn [Startup.open_tabs]. unfold mbind, Startup.B_bind, Startup.lookup_tab.
    destruct (Startup.worksheet sp tab_name (Startup.app_remote a)) as [[sh|e|e] rs].
    + intros H. apply IH in H. rewrite H, dom_insert_L. set_solver.
    + unfold Startup.output, Startup.call. cbn [Startup.app_remote Startup.set_remote].
      destruct (Startup.add_worksheet sp tab_name 1000 10 rs) as [[sh|e'] rs'].
      * intros H. apply IH in H. rewrite H, dom_insert_L. set_solver.
      * discriminate.
    + unfold Startup.output. intros H. apply IH in H.
      rewrite H, dom_insert_L. set_solver.
Qed.

(** The two ways out of the outer [try]. *)
Lemma connect_cases (a : A) :
  match Startup.connect a with
  | (Returned _, a') =>
      exists (sp : spreadsheet) (a0 : A) (m : gmap pystr (option sheet)),
        fst (Startup.open_tabs sp STATION_TABS ∅ a0) = Returned m
        /\ Startup.raw a'
           = Startup.connection_result m Startup.connected_text (Startup.raw a)
  | (Raised _, a') => Startup.raw a' = Startup.raw a
  end.
Proof.
  unfold Startup.connect, Startup.load_credentials, Startup.b_try, Startup.call,
    mbind, Startup.B_bind, Startup.with_raw.
  destruct (Startup.secrets_credentials (Startup.app_remote a)) as [[c|e0] r0];
    cbn [Startup.app_remote Startup.set_remote Startup.raw fst snd].
  - destruct (Startup.authorize c r0) as [[cl|e1] r1];
      cbn [Startup.app_remote Startup.set_remote Startup.raw fst snd]; [|reflexivity].
    destruct (Startup.open_by_key cl Startup.SHEET_ID r1) as [[sp|e2] r2];
      cbn [Startup.app_remote Startup.set_remote Startup.raw fst snd]; [|reflexivity].
    pose proof (open_tabs_raw sp STATION_TABS ∅
                  (Startup.set_remote r2 (Startup.set_remote r1 (Startup.set_remote r0 a))))
      as Hraw.
    destruct (Startup.open_tabs sp STATION_TABS ∅ _) as [[m|e3] a3] eqn:Ho;
      cbn [fst snd Startup.raw] in *.
    + eexists sp, _, m. rewrite Ho. split; [reflexivity|]. rewrite Hraw. reflexivity.
    + exact Hraw.
  - destruct (Startup.file_credentials (str "service_account1.json") r0) as [[c|e0'] r0'];
      cbn [Startup.app_remote Startup.set_remote Startup.raw fst snd]; [|reflexivity].
    destruct (Startup.authorize c r0') as [[cl|e1] r1];
      cbn [Startup.app_remote Startup.set_remote Startup.raw fst snd]; [|reflexivity].
    destruct (Startup.open_by_key cl Startup.SHEET_ID r1) as [[sp|e2] r2];
      cbn [Startup.app_remote Startup.set_remote Startup.raw fst snd]; [|reflexivity].
    pose proof (open_tabs_raw sp STATION_TABS ∅
                  (Startup.set_remote r2 (Startup.set_remote r1
                     (Startup.set_remote r0' (Startup.set_remote r0 a)))))
      as Hraw.
    destruct (Startup.open_tabs sp STATION_TABS ∅ _) as [[m|e3] a3] eqn:Ho;
      cbn [fst snd Startup.raw] in *.
    + eexists sp, _, m. rewrite Ho. split; [reflexivity|]. rewrite Hraw. reflexivity.
    + exact Hraw.
Qed.

(** What [initialize_google_sheets] leaves in a session that was not
    initialised. *)
Lemma initialize_google_sheets_cases (a : A) :
  Startup.k_sheets_initialized (Startup.raw a) = None ->
  fst (Startup.initialize_google_sheets a) = Returned tt
  /\ ((exists (sp : spreadsheet) (a0 : A) (m : gmap pystr (option sheet)),
         fst (Startup.open_tabs sp STATION_TABS ∅ a0) = Returned m
         /\ Startup.raw (snd (Startup.initialize_google_sheets a))
            = Startup.connection_result m Startup.connected_text (Startup.raw a))
      \/ (exists e,
            fst (Startup.connect a) = Raised e
            /\ Startup.raw (snd (Startup.initialize_google_sheets a))
               = Startup.connection_result ∅ (Startup.connection_failed_text e)
                   (Startup.raw a))).
Proof.
  intros Hflag. unfold Startup.initialize_google_sheets. rewrite Hflag.
  unfold Startup.b_try. pose proof (connect_cases a) as Hc.
  destruct (Startup.connect a) as [[[]|e] a'].
  - split; [reflexivity|]. left. exact Hc.
  - split; [reflexivity|]. right. exists e. split; [reflexivity|].
    unfold mbind, Startup.B_bind, Startup.with_raw, Startup.output.
    cbn [fst snd Startup.raw]. rewrite Hc. reflexivity.
Qed.

(** X8. [initialize_google_sheets] always returns and leaves the flag set,
    so that running it again does nothing at all: within a session the
    connection is tried once, and a failed attempt is not repeated. *)
Theorem connection_attempted_once (a : A) :
  let a' := snd (Startup.initialize_google_sheets a) in
  fst (Startup.initialize_google_sheets a) = Returned tt
  /\ is_Some (Startup.k_sheets_initialized (Startup.raw a'))
  /\ Startup.initialize_google_sheets a' = (Returned tt, a').
Proof.
  cbv zeta.
  assert (Hflag : fst (Startup.initialize_google_sheets a) = Returned tt
                  /\ is_Some (Startup.k_sheets_initialized
                                (Startup.raw (snd (Startup.initialize_google_sheets a))))).
  { destruct (Startup.k_sheets_initialized (Startup.raw a)) as [b|] eqn:Hf.
    - unfold Startup.initialize_google_sheets. rewrite Hf. cbn [fst snd].
      rewrite Hf. eauto.
    - destruct (initialize_google_sheets_cases a Hf)
        as [Hret [(sp & a0 & m & _ & Hraw)|(e & _ & Hraw)]];
        rewrite Hraw; cbn; eauto. }
  destruct Hflag as [Hret [b Hb]]. split; [exact Hret|]. split; [eauto|].
  unfold Startup.initialize_google_sheets at 1. rewrite Hb. reflexivity.
Qed.

(** X9. In a session that was not initialised the connection is all or
    nothing.  Either the status text is "Connected to Google Sheets" with
    its check mark and the sheets have one entry for each of the five
    stations, or the status text is "Google Sheets connection failed" with
    its cross and the message of the exception, and the sheets are empty.
    The ledger and the alert are not touched. *)
Theorem connection_all_or_nothing (a : A) :
  Startup.k_sheets_initialized (Startup.raw a) = None ->
  let s' := Startup.raw (snd (Startup.initialize_google_sheets a)) in
  ((exists m, Startup.k_sheets s' = Some m
              /\ dom m = list_to_set STATION_TABS.*1
              /\ Startup.k_status_text s' = Some Startup.connected_text)
   \/ (exists e, Startup.k_sheets s' = Some ∅
                 /\ Startup.k_status_text s' = Some (Startup.connection_failed_text e)))
  /\ Startup.k_local_data s' = Startup.k_local_data (Startup.raw a)
  /\ Startup.k_count_message s' = Startup.k_count_message (Startup.raw a)
  /\ Startup.k_count_color s' = Startup.k_count_color (Startup.raw a).
Proof.
  intros Hf. cbv zeta.
  destruct (initialize_google_sheets_cases a Hf)
    as [_ [(sp & a0 & m & Hopen & Hraw)|(e & _ & Hraw)]]; rewrite Hraw.
  - split; [|repeat split; reflexivity]. left. exists m.
    split; [reflexivity|]. split; [|reflexivity].
    rewrite (open_tabs_dom sp STATION_TABS ∅ m a0 Hopen). set_solver.
  - split; [|repeat split; reflexivity]. right. exists e. split; reflexivity.
Qed.

End BootFacts.

Lemma connection_all_or_nothing_witness :
  let a := ScriptedCloud.boot (ScriptedCloud.cloud None) in
  Startup.k_sheets_initialized (Startup.raw a) = None
  /\ Startup.k_status_text (Startup.raw (snd (Startup.initialize_google_sheets a)))
     = Some Startup.connected_text
  /\ Startup.k_local_data (Startup.raw (snd (Startup.initialize_google_sheets a))) = None.
Proof.
  cbv zeta.
  destruct (connection_all_or_nothing
              (ScriptedCloud.boot (ScriptedCloud.cloud None)) eq_refl)
    as (_ & Hl & _).
  split; [reflexivity|]. split; [vm_compute; reflexivity|exact Hl].
Defined.

Lemma station_tabs_nodup : NoDup STATION_TABS.*1.
Proof. apply (bool_decide_unpack _). vm_compute. exact I. Qed.

Lemma status_texts_differ (e : Exn) :
  Startup.connected_text <> Startup.connection_failed_text e.
Proof. unfold Startup.connected_text, Startup.connection_failed_text. discriminate. Qed.

Section BootTabs.

#[local] Arguments str : simpl never.

Context {creds client spreadsheet sheet remote : Type}.
Context `{WS : Worksheet sheet remote}.
Context `{GS : Startup.Gspread creds client spreadsheet sheet remote}.

Local Abbreviation A := (Startup.App sheet remote).

Ltac step_tab sp tab_name a IH :=
  cbn [Startup.open_tabs]; unfold mbind, Startup.B_bind, Startup.lookup_tab;
  destruct (Startup.worksheet sp tab_name (Startup.app_remote a)) as [[?sh|?e|?e] ?rs];
  [ | unfold Startup.output, Startup.call;
      cbn [Startup.app_remote Startup.set_remote];
      match goal with
      | |- context [Startup.add_worksheet ?s ?t ?n ?c ?r] =>
          destruct (Startup.add_worksheet s t n c r) as [[?sh|?e] ?rs]
      end
    | unfold Startup.output ].

(** A station that is not in the list keeps the entry it had. *)
Lemma open_tabs_other (sp : spreadsheet) (station : pystr)
    (tabs : list (pystr * pystr)) (m m' : gmap pystr (option sheet)) (a : A) :
  station ∉ tabs.*1 ->
  fst (Startup.open_tabs sp tabs m a) = Returned m' ->
  m' !! station = m !! station.
Proof.
  revert m a. induction tabs as [|[station0 tab_name] tabs IH]; intros m a Hnot.
  - cbn. intros [= <-]. reflexivity.
  - apply not_elem_of_cons in Hnot as [Hne Hnot]. cbn [fst] in Hne.
    step_tab sp tab_name a IH; try discriminate;
      intros H; apply (IH _ _ Hnot) in H; rewrite H;
      apply lookup_insert_ne; congruence.
Qed.

(** The entry of a station whose tab always raises an error that is not
    "not found". *)
Lemma open_tabs_unreadable (sp : spreadsheet) (station tab : pystr)
    (tabs : list (pystr * pystr)) (m m' : gmap pystr (option sheet)) (a : A) :
  NoDup tabs.*1 ->
  (station, tab) ∈ tabs ->
  (forall r, exists e, fst (Startup.worksheet sp tab r) = Startup.TabError e) ->
  fst (Startup.open_tabs sp tabs m a) = Returned m' ->
  m' !! station = Some None.
Proof.
  intros Hnd Hin Hbad. revert m a.
  induction tabs as [|[station0 tab_name] tabs IH]; intros m a.
  - inversion Hin.
  - apply NoDup_cons in Hnd as [Hfresh Hnd].
    apply elem_of_cons in Hin as [Heq|Hin].
    + injection Heq as <- <-.
      destruct (Hbad (Startup.app_remote a)) as [e He].
      cbn [Startup.open_tabs]. unfold mbind, Startup.B_bind, Startup.lookup_tab.
      destruct (Startup.worksheet sp tab (Startup.app_remote a)) as [lk rs].
      cbn [fst] in He. subst lk. unfold Startup.output.
      intros H. apply (open_tabs_other sp station tabs _ _ _ Hfresh) in H.
      rewrite H. apply lookup_insert_eq.
    + step_tab sp tab_name a IH; try discriminate; apply (IH Hnd Hin).
Qed.

(** The entry of a station whose tab is always found. *)
Lemma open_tabs_found (sp : spreadsheet) (station tab : pystr) (sh : sheet)
    (tabs : list (pystr * pystr)) (m m' : gmap pystr (option sheet)) (a : A) :
  NoDup tabs.*1 ->
  (station, tab) ∈ tabs ->
  (forall r, fst (Startup.worksheet sp tab r) = Startup.TabFound sh) ->
  fst (Startup.open_tabs sp tabs m a) = Returned m' ->
  m' !! station = Some (Some sh).
Proof.
  intros Hnd Hin Hok. revert m a.
  induction tabs as [|[station0 tab_name] tabs IH]; intros m a.
  - inversion Hin.
  - apply NoDup_cons in Hnd as [Hfresh Hnd].
    apply elem_of_cons in Hin as [Heq|Hin].
    + injection Heq as <- <-.
      pose proof (Hok (Startup.app_remote a)) as He.
      cbn [Startup.open_tabs]. unfold mbind, Startup.B_bind, Startup.lookup_tab.
      destruct (Startup.worksheet sp tab (Startup.app_remote a)) as [lk rs].
      cbn [fst] in He. subst lk.
      intros H. apply (open_tabs_other sp station tabs _ _ _ Hfresh) in H.
      rewrite H. apply lookup_insert_eq.
    + step_tab sp tab_name a IH; try discriminate; apply (IH Hnd Hin).
Qed.

(** A tab that is never found and cannot be created stops the loop. *)
Lemma open_tabs_uncreatable (sp : spreadsheet) (station tab : pystr)
    (tabs : list (pystr * pystr)) (m : gmap pystr (option sheet)) (a : A) :
  (station, tab) ∈ tabs ->
  (forall r, exists e, fst (Startup.worksheet sp tab r) = Startup.TabNotFound e) ->
  (forall r, exists e, fst (Startup.add_worksheet sp tab 1000 10 r) = Raised e) ->
  exists e, fst (Startup.open_tabs sp tabs m a) = Raised e.
Proof.
  intros Hin Hmiss Hdeny. revert m a.
  induction tabs as [|[station0 tab_name] tabs IH]; intros m a.
  - inversion Hin.
  - apply elem_of_cons in Hin as [Heq|Hin].
    + injection Heq as <- <-.
      destruct (Hmiss (Startup.app_remote a)) as [e He].
      cbn [Startup.open_tabs]. unfold mbind, Startup.B_bind, Startup.lookup_tab.
      destruct (Startup.worksheet sp tab (Startup.app_remote a)) as [lk rs].
      cbn [fst] in He. subst lk. unfold Startup.output, Startup.call.
      cbn [Startup.app_remote Startup.set_remote].
      destruct (Hdeny rs) as [e' He'].
      destruct (Startup.add_worksheet sp tab 1000 10 rs) as [o rs'].
      cbn [fst] in He'. subst o. exists e'. reflexivity.
    + step_tab sp tab_name a IH; try (eexists; reflexivity); apply (IH Hin).
Qed.

(** X10. A tab whose lookup raises an error other than "not found" takes
    only its station off line: after start-up the station has no usable
    worksheet, whether the connection as a whole succeeded or not, and a
    scan at that station that returns ends with the status "No Google
    Sheet tab available" for it. *)
Theorem unreadable_tab_takes_station_offline (a : A) (station tab : pystr) :
  Startup.k_sheets_initialized (Startup.raw a) = None ->
  (station, tab) ∈ STATION_TABS ->
  (forall (sp : spreadsheet) r,
     exists e, fst (Startup.worksheet sp tab r) = Startup.TabError e) ->
  exists m,
    Startup.k_sheets (Startup.raw (snd (Startup.initialize_google_sheets a))) = Some m
    /\ (m !! station = None \/ m !! station = Some None)
    /\ (Startup.k_status_text (Startup.raw (snd (Startup.initialize_google_sheets a)))
        = Some Startup.connected_text -> m !! station = Some None)
    /\ (forall (w : World sheet remote) (d : pystr),
          sheets (session w) = m ->
          forallb isspace d = false ->
          fst (scan_id d station w) = Returned tt ->
          status_text (session (snd (scan_id d station w)))
          = str "No Google Sheet tab available for " ++ station).
Proof.
  intros Hf Hin Hbad.
  assert (Hscan : forall m : gmap pystr (option sheet),
            (m !! station = None \/ m !! station = Some None) ->
            forall (w : World sheet remote) (d : pystr),
              sheets (session w) = m ->
              forallb isspace d = false ->
              fst (scan_id d station w) = Returned tt ->
              status_text (session (snd (scan_id d station w)))
              = str "No Google Sheet tab available for " ++ station).
  { intros m Hm w d Hw Hd Hret. apply valid_iff in Hd.
    destruct (backup d station w) as [[u|e] w1] eqn:Hb.
    - pose proof (scan_status_cases d station w w1 u Hd Hb) as Hst.
      rewrite Hw in Hst. destruct Hm as [Hm|Hm]; rewrite Hm in Hst; exact Hst.
    - rewrite (scan_id_raised d station w w1 e Hd Hb) in Hret. discriminate. }
  destruct (initialize_google_sheets_cases a Hf)
    as [_ [(sp & a0 & m & Hopen & Hraw)|(e & _ & Hraw)]]; rewrite Hraw.
  - pose proof (open_tabs_unreadable sp station tab STATION_TABS ∅ m a0
                  station_tabs_nodup Hin (Hbad sp) Hopen) as Hm.
    exists m. split; [reflexivity|]. split; [right; exact Hm|].
    split; [intros _; exact Hm|]. apply Hscan. right. exact Hm.
  - exists ∅. split; [reflexivity|]. split; [left; apply lookup_empty|].
    split.
    + cbn [Startup.k_status_text Startup.connection_result]. intros H.
      exfalso. apply (status_texts_differ e). congruence.
    + apply Hscan. left. apply lookup_empty.
Qed.

(** X11. A tab that is not found and cannot be created takes every
    station off line: the exception of the creation leaves the loop and
    the outer [try], the sheets are empty, tabs that were opened before
    it included, and the status text reports a failed connection. *)
Theorem uncreatable_tab_voids_connection (a : A) (station tab : pystr) :
  Startup.k_sheets_initialized (Startup.raw a) = None ->
  (station, tab) ∈ STATION_TABS ->
  (forall (sp : spreadsheet) r,
     exists e, fst (Startup.worksheet sp tab r) = Startup.TabNotFound e) ->
  (forall (sp : spreadsheet) r,
     exists e, fst (Startup.add_worksheet sp tab 1000 10 r) = Raised e) ->
  let s' := Startup.raw (snd (Startup.initialize_google_sheets a)) in
  Startup.k_sheets s' = Some ∅
  /\ exists e, Startup.k_status_text s' = Some (Startup.connection_failed_text e).
Proof.
  intros Hf Hin Hmiss Hdeny. cbv zeta.
  destruct (initialize_google_sheets_cases a Hf)
    as [_ [(sp & a0 & m & Hopen & Hraw)|(e & _ & Hraw)]]; rewrite Hraw.
  - destruct (open_tabs_uncreatable sp station tab STATION_TABS ∅ a0 Hin
                (Hmiss sp) (Hdeny sp)) as [e He].
    rewrite He in Hopen. discriminate.
  - split; [reflexivity|]. exists e. reflexivity.
Qed.

(** X12. When the connection succeeds, a station whose tab is found has
    that worksheet as its entry. *)
Theorem found_tab_is_kept (a : A) (station tab : pystr) (sh : sheet) :
  Startup.k_sheets_initialized (Startup.raw a) = None ->
  (station, tab) ∈ STATION_TABS ->
  (forall (sp : spreadsheet) r, fst (Startup.worksheet sp tab r) = Startup.TabFound sh) ->
  let s' := Startup.raw (snd (Startup.initialize_google_sheets a)) in
  Startup.k_status_text s' = Some Startup.connected_text ->
  exists m, Startup.k_sheets s' = Some m /\ m !! station = Some (Some sh).
Proof.
  intros Hf Hin Hok. cbv zeta.
  destruct (initialize_google_sheets_cases a Hf)
    as [_ [(sp & a0 & m & Hopen & Hraw)|(e & _ & Hraw)]]; rewrite Hraw.
  - intros _. exists m. split; [reflexivity|].
    exact (open_tabs_found sp station tab sh STATION_TABS ∅ m a0
             station_tabs_nodup Hin (Hok sp) Hopen).
  - cbn [Startup.k_status_text Startup.connection_result]. intros H.
    exfalso. apply (status_texts_differ e). congruence.
Qed.

End BootTabs.

Lemma unreadable_tab_takes_station_offline_witness :
  let gs := ScriptedCloud.client [str "DUD2"] [] None in
  let a := ScriptedCloud.boot (ScriptedCloud.cloud None) in
  Startup.k_sheets_initialized (Startup.raw a) = None
  /\ (str "DUD2", str "DUD2") ∈ STATION_TABS
  /\ (forall (sp : unit) r,
        exists e, fst (@Startup.worksheet _ _ _ _ _ gs sp (str "DUD2") r)
                  = Startup.TabError e)
  /\ exists m,
       Startup.k_sheets
         (Startup.raw (snd (@Startup.initialize_google_sheets _ _ _ _ _ gs a))) = Some m
       /\ m !! str "DUD2" = Some None.
Proof.
  cbv zeta.
  assert (Hin : (str "DUD2", str "DUD2") ∈ STATION_TABS) by (vm_compute; left).
  assert (Hbad : forall (sp : unit) r,
             exists e, fst (@Startup.worksheet _ _ _ _ _
                              (ScriptedCloud.client [str "DUD2"] [] None)
                              sp (str "DUD2") r) = Startup.TabError e)
    by (intros sp r; eexists; vm_compute; reflexivity).
  split; [reflexivity|]. split; [exact Hin|]. split; [exact Hbad|].
  destruct (@unreadable_tab_takes_station_offline _ _ _ _ _ ScriptedCloud.worksheet
              (ScriptedCloud.client [str "DUD2"] [] None)
              (ScriptedCloud.boot (ScriptedCloud.cloud None))
              (str "DUD2") (str "DUD2") eq_refl Hin Hbad)
    as (m & Hm & _ & Hconn & _).
  exists m. split; [exact Hm|]. apply Hconn. vm_compute. reflexivity.
Defined.

Lemma uncreatable_tab_voids_connection_witness :
  let deny := Exception (str "APIError: quota exceeded") in
  let gs := ScriptedCloud.client [] [str "DUD5"] (Some deny) in
  let a := ScriptedCloud.boot (ScriptedCloud.cloud None) in
  Startup.k_sheets_initialized (Startup.raw a) = None
  /\ (str "DUD5", str "DUD5") ∈ STATION_TABS
  /\ (forall (sp : unit) r,
        exists e, fst (@Startup.worksheet _ _ _ _ _ gs sp (str "DUD5") r)
                  = Startup.TabNotFound e)
  /\ (forall (sp : unit) r,
        exists e, fst (@Startup.add_worksheet _ _ _ _ _ gs sp (str "DUD5") 1000 10 r)
                  = Raised e)
  /\ Startup.k_sheets
       (Startup.raw (snd (@Startup.initialize_google_sheets _ _ _ _ _ gs a))) = Some ∅.
Proof.
  cbv zeta.
  assert (Hin : (str "DUD5", str "DUD5") ∈ STATION_TABS)
    by (vm_compute; do 4 right; left).
  assert (Hmiss : forall (sp : unit) r,
             exists e, fst (@Startup.worksheet _ _ _ _ _
                              (ScriptedCloud.client [] [str "DUD5"]
                                 (Some (Exception (str "APIError: quota exceeded"))))
                              sp (str "DUD5") r) = Startup.TabNotFound e)
    by (intros sp r; eexists; vm_compute; reflexivity).
  assert (Hdeny : forall (sp : unit) r,
             exists e, fst (@Startup.add_worksheet _ _ _ _ _
                              (ScriptedCloud.client [] [str "DUD5"]
                                 (Some (Exception (str "APIError: quota exceeded"))))
                              sp (str "DUD5") 1000 10 r) = Raised e)
    by (intros sp r; eexists; reflexivity).
  split; [reflexivity|]. split; [exact Hin|]. split; [exact Hmiss|].
  split; [exact Hdeny|].
  exact (proj1 (@uncreatable_tab_voids_connection _ _ _ _ _
                  (ScriptedCloud.client [] [str "DUD5"]
                     (Some (Exception (str "APIError: quota exceeded"))))
                  (ScriptedCloud.boot (ScriptedCloud.cloud None))
                  (str "DUD5") (str "DUD5") eq_refl Hin Hmiss Hdeny)).
Defined.

Lemma found_tab_is_kept_witness :
  let a := ScriptedCloud.boot (ScriptedCloud.cloud None) in
  Startup.k_sheets_initialized (Startup.raw a) = None
  /\ (str "DAD8", str "DAD8") ∈ STATION_TABS
  /\ (forall (sp : unit) r,
        fst (Startup.worksheet sp (str "DAD8") r) = Startup.TabFound (str "DAD8"))
  /\ Startup.k_status_text (Startup.raw (snd (Startup.initialize_google_sheets a)))
     = Some Startup.connected_text
  /\ exists m,
       Startup.k_sheets (Startup.raw (snd (Startup.initialize_google_sheets a))) = Some m
       /\ m !! str "DAD8" = Some (Some (str "DAD8")).
Proof.
  cbv zeta.
  assert (Hin : (str "DAD8", str "DAD8") ∈ STATION_TABS)
    by (vm_compute; do 3 right; left).
  assert (Hok : forall (sp : unit) (r : ScriptedCloud.Cloud),
             fst (Startup.worksheet sp (str "DAD8") r) = Startup.TabFound (str "DAD8"))
    by (intros sp r; reflexivity).
  assert (Hst : Startup.k_status_text
                  (Startup.raw (snd (Startup.initialize_google_sheets
                                       (ScriptedCloud.boot (ScriptedCloud.cloud None)))))
                = Some Startup.connected_text) by (vm_compute; reflexivity).
  split; [reflexivity|]. split; [exact Hin|]. split; [exact Hok|]. split; [exact Hst|].
  exact (found_tab_is_kept (ScriptedCloud.boot (ScriptedCloud.cloud None))
           (str "DAD8") (str "DAD8") (str "DAD8") eq_refl Hin Hok Hst).
Defined.

(** * Properties of the page *)

Lemma rev_last_ten {X} (l : list X) : rev (Startup.last_ten l) = take 10 (rev l).
Proof. unfold Startup.last_ten. symmetry. apply firstn_rev. Qed.

Lemma recent_table_snoc (ledger : list Scan) (ev : Scan) :
  Startup.recent_scans_table (ledger ++ [ev])
  = Some (Startup.recent_row ev :: (Startup.recent_row <$> take 9 (rev ledger))).
Proof.
  unfold Startup.recent_scans_table.
  destruct (ledger ++ [ev]) as [|x l] eqn:Hl.
  - destruct ledger; discriminate.
  - rewrite rev_last_ten, <- Hl, rev_app_distr. reflexivity.
Qed.

(** X13. The table of recent scans shows at most ten rows, the latest
    scan first: it is the first ten of the ledger read backwards, so the
    scan appended last is its first row and the ninth before it its
    last. *)
Theorem recent_table_latest_first (ledger : list Scan) (ev : Scan) :
  exists rows,
    Startup.recent_scans_table (ledger ++ [ev]) = Some rows
    /\ rows = Startup.recent_row ev :: (Startup.recent_row <$> take 9 (rev ledger))
    /\ length rows = Nat.min 10 (length ledger + 1)
    /\ rows = Startup.recent_row <$> take 10 (rev (ledger ++ [ev])).
Proof.
  assert (Htab : Startup.recent_scans_table (ledger ++ [ev])
                 = Some (Startup.recent_row <$> take 10 (rev (ledger ++ [ev])))).
  { unfold Startup.recent_scans_table.
    destruct (ledger ++ [ev]) as [|x l] eqn:Hl.
    - destruct ledger; discriminate.
    - rewrite rev_last_ten. reflexivity. }
  eexists. split; [exact Htab|].
  rewrite rev_app_distr. cbn [rev app take fmap list_fmap].
  split; [reflexivity|]. split; [|reflexivity].
  cbn [length]. rewrite length_fmap, length_take, length_rev. lia.
Qed.

Section PageFacts.

#[local] Arguments str : simpl never.

Context {creds client spreadsheet sheet remote : Type}.
Context `{WS : Worksheet sheet remote}.
Context `{GS : Startup.Gspread creds client spreadsheet sheet remote}.

Local Abbreviation A := (Startup.App sheet remote).
Local Abbreviation W := (World sheet remote).

Lemma to_session_of_session (s : SessionState sheet) (flag : option bool) :
  Startup.to_session (Startup.of_session s flag) = Some s.
Proof. destruct s. reflexivity. Qed.

Lemma of_session_to_session (r : Startup.RawSession sheet) (s : SessionState sheet) :
  Startup.to_session r = Some s ->
  Startup.of_session s (Startup.k_sheets_initialized r) = r
  /\ Startup.initialize_session_state r = r.
Proof.
  destruct r as [[l|] [sts|] [t|] [m|] [c|] [sh|] flag]; cbn; try discriminate.
  intros [= <-]. split; reflexivity.
Qed.

Lemma to_world_of_world (w : W) (a : A) :
  Startup.to_world (Startup.of_world w a) = Some w.
Proof.
  unfold Startup.to_world, Startup.of_world. cbn [Startup.raw].
  rewrite to_session_of_session. destruct w. reflexivity.
Qed.

Lemma of_world_to_world (w : W) (a : A) :
  Startup.to_world a = Some w ->
  Startup.of_world w a = a
  /\ Startup.initialize_session_state (Startup.raw a) = Startup.raw a.
Proof.
  unfold Startup.to_world. destruct (Startup.to_session (Startup.raw a)) as [s|] eqn:Hs;
    [|discriminate].
  cbn. intros [= <-]. destruct (of_session_to_session _ _ Hs) as [H1 H2].
  split; [|exact H2]. unfold Startup.of_world. cbn [session files disk_faults
    remote_state clock ticks effects]. rewrite H1. destruct a. reflexivity.
Qed.

(** One run of [main] on a session that start-up has been through: it is
    the form, then the page. *)
Lemma main_initialised (st d : pystr) (button : bool) (a : A) (w : W) :
  Startup.to_world a = Some w ->
  is_Some (Startup.k_sheets_initialized (Startup.raw a)) ->
  Startup.main st d button a
  = match submit_form button d st w with
    | (Returned _, w') => (Returned (Startup.render (session w')), Startup.of_world w' a)
    | (Raised e, w') => (Raised e, Startup.of_world w' a)
    end.
Proof.
  intros Hw [flag Hflag]. destruct (of_world_to_world w a Hw) as [_ Hinit].
  unfold Startup.main, mbind, Startup.B_bind, Startup.with_raw.
  rewrite Hinit.
  replace {| Startup.raw := Startup.raw a; Startup.app_files := Startup.app_files a;
             Startup.app_disk_faults := Startup.app_disk_faults a;
             Startup.app_remote := Startup.app_remote a;
             Startup.app_clock := Startup.app_clock a;
             Startup.app_ticks := Startup.app_ticks a;
             Startup.app_effects := Startup.app_effects a;
             Startup.app_output := Startup.app_output a |} with a
    by (destruct a; reflexivity).
  unfold Startup.initialize_google_sheets. rewrite Hflag.
  unfold Startup.on_world at 1. rewrite Hw.
  destruct (submit_form button d st w) as [[u|e] w']; [|reflexivity].
  unfold Startup.on_world. rewrite to_world_of_world. reflexivity.
Qed.

(** X14. On a session that start-up has been through, a run of the script
    without a submission, the button not pressed or the driver id empty,
    changes nothing: the session, the files, the service and the effects
    are what they were, no error is reported, and the page shows the
    session as it is. *)
Theorem rerun_without_submission (st d : pystr) (button : bool) (a : A) (w : W) :
  Startup.to_world a = Some w ->
  is_Some (Startup.k_sheets_initialized (Startup.raw a)) ->
  button = false \/ d = [] ->
  Startup.main st d button a = (Returned (Startup.render (session w)), a).
Proof.
  intros Hw Hflag Hno. rewrite (main_initialised st d button a w Hw Hflag).
  assert (Hform : submit_form button d st w = (Returned tt, w)).
  { unfold submit_form. destruct Hno as [->| ->]; [reflexivity|].
    rewrite andb_false_r. reflexivity. }
  rewrite Hform. destruct (of_world_to_world w a Hw) as [-> _]. reflexivity.
Qed.

(** X15. On a session that start-up has been through, a run of the script
    with a driver id that is not blank raises exactly when the scan does,
    that is when its backup fails; otherwise the page shows the scan as
    the first row of the recent scans and the alert of its count, as a
    warning above five and as a success up to five. *)
Theorem main_shows_the_scan (st d : pystr) (a : A) (w : W) :
  Startup.to_world a = Some w ->
  is_Some (Startup.k_sheets_initialized (Startup.raw a)) ->
  forallb isspace d = false ->
  (forall e, fst (Startup.main st d true a) = Raised e <-> fst (backup d st w) = Raised e)
  /\ (fst (scan_id d st w) = Returned tt ->
      exists page,
        fst (Startup.main st d true a) = Returned page
        /\ Startup.page_recent page
           = Some (Startup.recent_row (scan_event d st w)
                     :: (Startup.recent_row <$> take 9 (rev (local_data (session w)))))
        /\ Startup.page_count page
           = Some (if 5 <? counted d st w
                   then Warning (break_message d (counted d st w) st)
                   else Success (normal_message d (counted d st w) st))).
Proof.
  intros Hw Hflag Hd. pose proof Hd as Hv. apply valid_iff in Hv.
  assert (Htruthy : truthy d = true).
  { destruct d; [discriminate Hd|reflexivity]. }
  rewrite (main_initialised st d true a w Hw Hflag).
  unfold submit_form. rewrite Htruthy. cbn [andb].
  split.
  - intros e. rewrite <- (scan_id_raises_iff d st w e Hv).
    destruct (scan_id d st w) as [[u|e'] w']; cbn [fst]; split; congruence.
  - intros Hret. destruct (scan_id_alert d st w Hv Hret) as [Hm Hc].
    pose proof (scan_id_ledger d st w Hv) as Hl.
    destruct (scan_id d st w) as [[u|e'] w']; [|discriminate]. cbn [fst snd] in *.
    eexists. split; [reflexivity|].
    unfold Startup.render. cbn [Startup.page_recent Startup.page_count].
    split.
    + rewrite Hl. apply recent_table_snoc.
    + unfold count_display. rewrite Hm, Hc.
      destruct (5 <? counted d st w); reflexivity.
Qed.

(** X16. The first run of the script on a new session, without a
    submission, returns; it leaves the session that the scans start from:
    an empty ledger, the five stations, no count message, the colour
    lightgreen, and the sheets and the status text of the connection.  The
    page has no alert and no table, and it shows the status as a success
    when the connection succeeded, and as an error when it failed with an
    exception whose message has no check mark in it. *)
Theorem first_run_session (st d : pystr) (a : A) :
  Startup.raw a = Startup.empty_session ->
  exists (m : gmap pystr (option sheet)) (text : pystr) (page : Startup.Page),
    fst (Startup.main st d false a) = Returned page
    /\ Startup.to_session (Startup.raw (snd (Startup.main st d false a)))
       = Some (initialize_session_state m text)
    /\ Startup.page_count page = None
    /\ Startup.page_recent page = None
    /\ ((text = Startup.connected_text
         /\ dom m = list_to_set STATION_TABS.*1
         /\ Startup.page_status page = Some (Startup.StatusSuccess text))
        \/ (exists e,
              text = Startup.connection_failed_text e
              /\ m = ∅
              /\ (Startup.check_mark ∉ exn_str e ->
                  Startup.page_status page = Some (Startup.StatusError text)))).
Proof.
  intros Hraw.
  set (a1 := snd (Startup.with_raw Startup.initialize_session_state a)).
  assert (Hraw1 : Startup.raw a1
                  = Startup.initialize_session_state Startup.empty_session).
  { unfold a1, Startup.with_raw. cbn [snd Startup.raw]. rewrite Hraw. reflexivity. }
  assert (Hflag : Startup.k_sheets_initialized (Startup.raw a1) = None)
    by (rewrite Hraw1; reflexivity).
  assert (Hmain : forall (m : gmap pystr (option sheet)) (text : pystr),
            Startup.raw (snd (Startup.initialize_google_sheets a1))
            = Startup.connection_result m text (Startup.raw a1) ->
            fst (Startup.main st d false a)
            = Returned (Startup.render (initialize_session_state m text))
            /\ Startup.to_session (Startup.raw (snd (Startup.main st d false a)))
               = Some (initialize_session_state m text)).
  { intros m text Hres.
    pose proof (proj1 (initialize_google_sheets_cases a1 Hflag)) as Hret.
    unfold Startup.main, mbind, Startup.B_bind.
    change (Startup.with_raw Startup.initialize_session_state a)
      with (Returned tt, a1).
    cbv beta iota.
    destruct (Startup.initialize_google_sheets a1) as [o a2]. cbn [fst snd] in *.
    subst o. cbv beta iota. unfold Startup.on_world at 1 3, Startup.to_world at 1 2.
    rewrite Hres, Hraw1.
    assert (Hts : Startup.to_session
                    (Startup.connection_result m text
                       (Startup.initialize_session_state
                          (Startup.empty_session (sheet:=sheet))))
                  = Some (initialize_session_state m text)) by reflexivity.
    rewrite Hts. cbn [mbind option_bind]. unfold submit_form. cbn [andb].
    unfold Startup.on_world, mret, M_ret. cbv beta iota.
    rewrite to_world_of_world. cbn [fst snd session].
    split; [reflexivity|].
    unfold Startup.of_world. cbn [Startup.raw session].
    apply to_session_of_session. }
  destruct (initialize_google_sheets_cases a1 Hflag)
    as [_ [(sp & a0 & m & Hopen & Hres)|(e & _ & Hres)]];
    destruct (Hmain _ _ Hres) as [Hpage Hsess].
  - exists m, Startup.connected_text. eexists. split; [exact Hpage|].
    split; [exact Hsess|]. split; [reflexivity|]. split; [reflexivity|].
    left. split; [reflexivity|]. split.
    + rewrite (open_tabs_dom sp STATION_TABS ∅ m a0 Hopen). set_solver.
    + vm_compute. reflexivity.
  - exists ∅, (Startup.connection_failed_text e). eexists. split; [exact Hpage|].
    split; [exact Hsess|]. split; [reflexivity|]. split; [reflexivity|].
    right. exists e. split; [reflexivity|]. split; [reflexivity|].
    intros Hno. unfold Startup.render, Startup.status_display.
    cbn [Startup.page_status initialize_session_state status_text].
    assert (Hcheck : Startup.check_mark ∉ Startup.connection_failed_text e).
    { unfold Startup.connection_failed_text. intros Hin.
      apply elem_of_app in Hin as [Hin|Hin].
      - vm_compute in Hin.
        repeat (apply elem_of_cons in Hin as [Hin|Hin]; [discriminate|]).
        inversion Hin.
      - apply elem_of_cons in Hin as [Hin|Hin]; [discriminate|].
        apply elem_of_app in Hin as [Hin|Hin]; [|exact (Hno Hin)].
        vm_compute in Hin.
        repeat (apply elem_of_cons in Hin as [Hin|Hin]; [discriminate|]).
        inversion Hin. }
    assert (Hcross : Startup.cross_mark ∈ Startup.connection_failed_text e).
    { unfold Startup.connection_failed_text. apply elem_of_app. right. left. }
    rewrite (bool_decide_eq_false_2 _ Hcheck), (bool_decide_eq_true_2 _ Hcross).
    reflexivity.
Qed.

End PageFacts.

Example first_run_starts :
  snd (Startup.main (str "DUD2") [] false (ScriptedCloud.boot (ScriptedCloud.cloud None)))
  = ScriptedCloud.started.
Proof. vm_compute. reflexivity. Qed.

Lemma rerun_without_submission_witness :
  let a := ScriptedCloud.started in
  let w := ScriptedCloud.running in
  Startup.to_world a = Some w
  /\ is_Some (Startup.k_sheets_initialized (Startup.raw a))
  /\ Startup.main (str "DUD2") (str "D123") false a
     = (Returned (Startup.render (session w)), a).
Proof.
  cbv zeta.
  assert (Hw : Startup.to_world ScriptedCloud.started = Some ScriptedCloud.running)
    by reflexivity.
  assert (Hf : is_Some (Startup.k_sheets_initialized (Startup.raw ScriptedCloud.started)))
    by (eexists; reflexivity).
  split; [exact Hw|]. split; [exact Hf|].
  exact (rerun_without_submission (str "DUD2") (str "D123") false _ _ Hw Hf
           (or_introl eq_refl)).
Defined.

Lemma main_shows_the_scan_witness :
  let a := ScriptedCloud.started in
  let w := ScriptedCloud.running in
  Startup.to_world a = Some w
  /\ is_Some (Startup.k_sheets_initialized (Startup.raw a))
  /\ forallb isspace (str "D123") = false
  /\ fst (scan_id (str "D123") (str "DUD2") w) = Returned tt
  /\ exists page,
       fst (Startup.main (str "DUD2") (str "D123") true a) = Returned page
       /\ Startup.page_count page
          = Some (Success (str "Driver D123 scanned 1 times today at DUD2")).
Proof.
  cbv zeta.
  assert (Hw : Startup.to_world ScriptedCloud.started = Some ScriptedCloud.running)
    by reflexivity.
  assert (Hf : is_Some (Startup.k_sheets_initialized (Startup.raw ScriptedCloud.started)))
    by (eexists; reflexivity).
  assert (Hr : fst (scan_id (str "D123") (str "DUD2") ScriptedCloud.running) = Returned tt)
    by (vm_compute; reflexivity).
  split; [exact Hw|]. split; [exact Hf|]. split; [reflexivity|]. split; [exact Hr|].
  destruct (main_shows_the_scan (str "DUD2") (str "D123") _ _ Hw Hf eq_refl)
    as [_ Hpage].
  destruct (Hpage Hr) as (page & Hmain & _ & Hcount).
  exists page. split; [exact Hmain|]. rewrite Hcount. vm_compute. reflexivity.
Defined.

Lemma first_run_session_witness :
  let a := ScriptedCloud.boot (ScriptedCloud.cloud None) in
  Startup.raw a = Startup.empty_session
  /\ exists m text,
       Startup.to_session (Startup.raw (snd (Startup.main (str "DUD2") [] false a)))
       = Some (initialize_session_state m text).
Proof.
  cbv zeta. split; [reflexivity|].
  destruct (first_run_session (str "DUD2") [] (ScriptedCloud.boot (ScriptedCloud.cloud None))
              eq_refl) as (m & text & page & _ & Hs & _).
  exists m, text. exact Hs.
Defined.

Section Configuration.

Context {sheet remote : Type} `{WS : Worksheet sheet remote}.

(** X17. No run of scans touches the configuration of the session: the
    worksheets of the stations and the list of stations are after it what
    start-up left, whatever the scans did. *)
Theorem scans_keep_configuration (reqs : list (pystr * pystr)) (w : World sheet remote) :
  sheets (session (run_scans reqs w)) = sheets (session w)
  /\ stations (session (run_scans reqs w)) = stations (session w).
Proof.
  revert w. induction reqs as [|[d st] reqs IH]; intros w; [split; reflexivity|].
  cbn [run_scans]. destruct (IH (snd (scan_id d st w))) as [Hs Ht].
  rewrite Hs, Ht.
  assert (H1 : preserves (fun w : World sheet remote => sheets (session w)) (scan_id d st))
    by (unfold scan_id, save_to_csv, update_alert, sync_single_scan, sync_body; frame).
  assert (H2 : preserves (fun w : World sheet remote => stations (session w)) (scan_id d st))
    by (unfold scan_id, save_to_csv, update_alert, sync_single_scan, sync_body; frame).
  split; [apply H1|apply H2].
Qed.

End Configuration.
